(** * codeintel-api-endpoint-validator: a shallow embedding of [main.py]

    The program loads an API schema (YAML or JSON), scans a source tree for
    Flask-style route declarations and cross-references the two.  This file
    embeds the class [APIEndpointValidator] and the driver [main] and proves
    the properties of the specification about them.

    Python objects are modelled as follows.
    - A parsed YAML/JSON document is a [Value]; a [dict] is an association
      list in insertion order (the parsers never produce two equal keys).
    - The validator object [self] is a record that is threaded through a
      state-and-exception monad [M]; an exception keeps the mutations done
      before it was raised, as in Python.
    - The operating system and the two parser libraries are the variables of
      the section [Program]: what [open] and [read] answer for a path, what
      [os.walk] yields for a directory, what [yaml.safe_load] and
      [json.load] make of a text.
    - Every call of [open] and every call of the [logging] module is
      recorded, in order, in the trace of the state. *)

From Stdlib Require Import String Ascii List ZArith Bool Arith Lia.
From Stdlib Require Import Floats.SpecFloat.
Import ListNotations.
Local Open Scope string_scope.
Local Open Scope list_scope.

Set Implicit Arguments.
Local Set Warnings "-register-all".

(** ** Document values *)

(** Keys of a parsed mapping: JSON keys are strings, YAML keys may be any
    scalar. *)
Inductive Key : Type :=
| KNone
| KBool (b : bool)
| KInt (z : Z)
| KFloat (f : spec_float)
| KStr (s : string).

(** What [yaml.safe_load] and [json.load] return, for the document values
    of the data model (null, booleans, numbers, strings, sequences and
    mappings); [VNone] is Python's [None], which is also the value of
    [self.schema] before any load. *)
Inductive Value : Type :=
| VNone
| VBool (b : bool)
| VInt (z : Z)
| VFloat (f : spec_float)
| VStr (s : string)
| VList (items : list Value)
| VDict (entries : list (Key * Value)).

(** ** Exceptions and results *)

Inductive exn : Type :=
| FileNotFoundError (filename : string)
| OSError (msg : string)
| YAMLError (diagnostic : string)
| JSONDecodeError (diagnostic : string)
| ValueError (msg : string)
| TypeError
| AttributeError
| KeyError (key : string).

Inductive result (A : Type) : Type :=
| Ok (a : A)
| Raise (e : exn).

Arguments Ok {A} a.
Arguments Raise {A} e.

(** ** Python primitives used by the program *)

Module Py.

(** [bool(v)], the test behind [if not v]. *)
Definition truthy (v : Value) : bool :=
  match v with
  | VNone => false
  | VBool b => b
  | VInt z => negb (Z.eqb z 0)
  | VFloat f => match f with S754_zero _ => false | _ => true end
  | VStr s => negb (String.eqb s "")
  | VList items => match items with [] => false | _ => true end
  | VDict entries => match entries with [] => false | _ => true end
  end.

(** [key == k] for a string [k]: only a string key can be equal to it. *)
Definition key_is (k : string) (key : Key) : bool :=
  match key with
  | KStr s => String.eqb s k
  | _ => false
  end.

(** [v == k] for a string [k]. *)
Definition value_is (k : string) (v : Value) : bool :=
  match v with
  | VStr s => String.eqb s k
  | _ => false
  end.

Fixpoint dict_get (k : string) (entries : list (Key * Value)) : option Value :=
  match entries with
  | [] => None
  | (key, v) :: rest => if key_is k key then Some v else dict_get k rest
  end.

(** [needle in s] on two strings. *)
Definition is_substring (needle s : string) : bool :=
  match String.index 0 needle s with
  | Some _ => true
  | None => false
  end.

(** [k in container] for a string [k]: key lookup in a dict, substring
    test in a str, element test in a list; the other values are not
    containers. *)
Definition contains (k : string) (container : Value) : result bool :=
  match container with
  | VDict entries => Ok (existsb (key_is k) (map fst entries))
  | VStr s => Ok (is_substring k s)
  | VList items => Ok (existsb (value_is k) items)
  | VNone | VBool _ | VInt _ | VFloat _ => Raise TypeError
  end.

(** [container[k]] for a string [k]. *)
Definition getitem (container : Value) (k : string) : result Value :=
  match container with
  | VDict entries =>
      match dict_get k entries with
      | Some v => Ok v
      | None => Raise (KeyError k)
      end
  | _ => Raise TypeError
  end.

(** [v.keys()]: only a dict has the method. *)
Definition keys (v : Value) : result (list Key) :=
  match v with
  | VDict entries => Ok (map fst entries)
  | _ => Raise AttributeError
  end.

(** [s.endswith(suffix)]. *)
Definition endswith (s suffix : string) : bool :=
  let n := String.length s in
  let k := String.length suffix in
  Nat.leb k n && String.eqb (substring (n - k) k s) suffix.

(** [os.path.join(root, name)] for a relative [name]. *)
Definition path_join (root name : string) : string :=
  if String.eqb root "" then name
  else if endswith root "/" then String.append root name
  else String.append root (String.append "/" name).

(** An f-string is the concatenation of its pieces. *)
Definition fstring (pieces : list string) : string := String.concat "" pieces.

End Py.

(** ** The route pattern

    [find_endpoints] calls [re.findall] with the pattern
    [@app\.route\(Q(.*?)Q], where [Q] stands for the character class of the
    two quote characters: the literal [@app.route(], a quote of either kind,
    the shortest run of characters other than a newline, a quote of either
    kind.  With one group, [findall] returns the group of every match,
    matches being searched from left to right without overlap. *)

Module Re.

Definition dquote : ascii := ascii_of_nat 34.
Definition newline : ascii := ascii_of_nat 10.

Definition is_quote (c : ascii) : bool := Ascii.eqb c "'" || Ascii.eqb c dquote.

(** The group and the closing quote at the start of [s]: the group ends at the first quote,
    and there is no match when a newline or the end of the text comes
    first. *)
Fixpoint lazy_group (s : string) : option string :=
  match s with
  | EmptyString => None
  | String c rest =>
      if is_quote c then Some EmptyString
      else if Ascii.eqb c newline then None
      else option_map (String c) (lazy_group rest)
  end.

Definition route_call : string := "@app.route(".

Fixpoint drop (n : nat) (s : string) : string :=
  match n, s with
  | S k, String _ rest => drop k rest
  | _, _ => s
  end.

(** The group of a match that starts at the first character of [s]. *)
Definition match_here (s : string) : option string :=
  if String.prefix route_call s then
    match drop (String.length route_call) s with
    | String q rest => if is_quote q then lazy_group rest else None
    | EmptyString => None
    end
  else None.

(** [skip] is the number of characters of the last match still to be
    passed over. *)
Fixpoint findall_from (skip : nat) (s : string) : list string :=
  match s with
  | EmptyString => []
  | String _ rest =>
      match skip with
      | S k => findall_from k rest
      | O =>
          match match_here s with
          | Some g => g :: findall_from (String.length route_call + 1 + String.length g) rest
          | None => findall_from 0 rest
          end
      end
  end.

Definition findall (content : string) : list string := findall_from 0 content.

End Re.

(** ** The validator object, the trace and the monad *)

(** An endpoint record as [find_endpoints] builds it: [(file_path, endpoint)]. *)
Definition Endpoint : Type := (string * string)%type.

(** The fields that [__init__] sets. *)
Record Validator : Type := mkValidator {
  code_path : string;
  schema_path : string;
  endpoints : list Endpoint;
  schema : Value
}.

Definition init (code_path schema_path : string) : Validator :=
  mkValidator code_path schema_path [] VNone.

Inductive level : Type := DEBUG | INFO | WARNING | ERROR | CRITICAL.

(** [Open path] is a call of [open]; [Logged lvl msg e] is a call of the
    logging function of level [lvl] whose message is [msg] followed by the
    text of the exception [e], when there is one. *)
Inductive event : Type :=
| Open (path : string)
| Logged (lvl : level) (msg : string) (e : option exn).

Record St : Type := mkSt {
  self : Validator;
  trace : list event
}.

Definition M (A : Type) : Type := St -> result A * St.

Definition ret {A} (a : A) : M A := fun st => (Ok a, st).

Definition bind {A B} (m : M A) (k : A -> M B) : M B :=
  fun st =>
    match m st with
    | (Ok a, st') => k a st'
    | (Raise e, st') => (Raise e, st')
    end.

Definition raise {A} (e : exn) : M A := fun st => (Raise e, st).

(** [try: m except Exception as e: handler e]. *)
Definition try_except {A} (m : M A) (handler : exn -> M A) : M A :=
  fun st =>
    match m st with
    | (Ok a, st') => (Ok a, st')
    | (Raise e, st') => handler e st'
    end.

Definition lift {A} (r : result A) : M A := fun st => (r, st).

Definition get_self : M Validator := fun st => (Ok (self st), st).

Definition emit (ev : event) : M unit :=
  fun st => (Ok tt, mkSt (self st) (trace st ++ [ev])).

Definition log (lvl : level) (msg : string) : M unit := emit (Logged lvl msg None).

Definition log_exn (lvl : level) (msg : string) (e : exn) : M unit :=
  emit (Logged lvl msg (Some e)).

Definition set_schema (v : Value) : M unit :=
  fun st =>
    let o := self st in
    (Ok tt, mkSt (mkValidator (code_path o) (schema_path o) (endpoints o) v) (trace st)).

(** [self.endpoints.extend(more)]. *)
Definition extend_endpoints (more : list Endpoint) : M unit :=
  fun st =>
    let o := self st in
    (Ok tt, mkSt (mkValidator (code_path o) (schema_path o) (endpoints o ++ more) (schema o))
                 (trace st)).

Notation "x <- m ;; k" := (bind m (fun x => k))
  (at level 61, m at next level, right associativity).
Notation "m ;; k" := (bind m (fun _ => k))
  (at level 61, right associativity).

(** [for x in l: body x]. *)
Fixpoint for_each {A} (l : list A) (body : A -> M unit) : M unit :=
  match l with
  | [] => ret tt
  | x :: rest => body x ;; for_each rest body
  end.

Definition result_of {A} (m : M A) (st : St) : result A := fst (m st).
Definition state_after {A} (m : M A) (st : St) : St := snd (m st).

(** What an opened file gives to its reader.  [Text content]: every read
    succeeds and the text, read to its end, is [content].  [Unreadable e]:
    the first call of [read] on the file raises [e]; [f.read()], in
    [find_endpoints] and inside [json.load], is one call for the whole
    file, and [yaml.safe_load] makes its first call when it builds its
    loader, before it parses anything.  A stream whose first chunk is read
    and a later one is not has no value in this type. *)
Inductive file : Type :=
| Unreadable (e : exn)
| Text (content : string).

(** ** The program *)

Section Program.

(** [fs_open path]: what [open(path, 'r')] does. *)
Variable fs_open : string -> result file.
(** [os_walk top]: the triples [(root, dirs, files)] that [os.walk(top)]
    yields, in order. *)
Variable os_walk : string -> list (string * list string * list string).
(** The parsers: a diagnostic on the left, the document on the right. *)
Variable yaml_safe_load : string -> string + Value.
Variable json_load : string -> string + Value.

Definition open_ (path : string) : M file :=
  emit (Open path) ;; lift (fs_open path).

Definition read (f : file) : M string :=
  match f with
  | Unreadable e => raise e
  | Text content => ret content
  end.

(** A parser applied to an open file.  [json.load] reads the file with
    one [read] and parses the text.  [yaml.safe_load] reads the stream in
    chunks while it parses: the error of its first read is raised as it
    is, and on a stream whose every read succeeds its result is the
    parser's on the whole text (it has read the stream to its end when it
    returns a document, and stops reading at a syntax error, which the
    trace does not record). *)
Definition parse (parser : string -> string + Value) (error : string -> exn)
           (f : file) : M Value :=
  content <- read f ;;
  match parser content with
  | inl diagnostic => raise (error diagnostic)
  | inr v => ret v
  end.

Definition unsupported_format : exn :=
  ValueError "Unsupported schema file format. Only YAML and JSON are supported.".

(** [load_schema]: the body of the [try], then the [except] clauses in
    their order. *)
Definition load_schema_body : M unit :=
  o <- get_self ;;
  f <- open_ (schema_path o) ;;
  if Py.endswith (schema_path o) ".yaml" || Py.endswith (schema_path o) ".yml" then
    v <- parse yaml_safe_load YAMLError f ;;
    set_schema v
  else if Py.endswith (schema_path o) ".json" then
    v <- parse json_load JSONDecodeError f ;;
    set_schema v
  else raise unsupported_format.

Definition load_schema_handler (e : exn) : M unit :=
  o <- get_self ;;
  match e with
  | FileNotFoundError _ =>
      log ERROR (Py.fstring ["Schema file not found: "; schema_path o]) ;; raise e
  | YAMLError _ => log_exn ERROR "Error parsing YAML schema: " e ;; raise e
  | JSONDecodeError _ => log_exn ERROR "Error parsing JSON schema: " e ;; raise e
  | _ => log_exn ERROR "Error loading schema: " e ;; raise e
  end.

Definition load_schema : M unit := try_except load_schema_body load_schema_handler.

(** [find_endpoints]: the two nested loops, then the [except] clause. *)
Definition scan_file (root name : string) : M unit :=
  if Py.endswith name ".py" then
    let file_path := Py.path_join root name in
    f <- open_ file_path ;;
    content <- read f ;;
    let matches := Re.findall content in
    extend_endpoints (map (fun endpoint => (file_path, endpoint)) matches)
  else ret tt.

Definition find_endpoints_body : M unit :=
  o <- get_self ;;
  for_each (os_walk (code_path o))
    (fun '(root, _, files) => for_each files (scan_file root)).

Definition find_endpoints : M unit :=
  try_except find_endpoints_body
    (fun e => log_exn ERROR "Error finding endpoints: " e ;; raise e).

(** [validate_endpoints]. *)
Definition http_methods : list string :=
  ["get"; "post"; "put"; "delete"; "patch"; "options"; "head"].

(** [method in ['get', ..., 'head']]. *)
Definition is_http_method (method : Key) : bool :=
  existsb (fun m => Py.key_is m method) http_methods.

Definition not_found_error (file_path endpoint : string) : string :=
  Py.fstring ["Endpoint '"; endpoint; "' (defined in "; file_path; ") not found in schema."].

Definition no_methods_error (endpoint : string) : string :=
  Py.fstring ["Endpoint '"; endpoint; "' in schema does not define valid HTTP methods."].

(** One turn of the loop over [self.endpoints]; [errors] is the list
    built so far. *)
Definition validate_endpoint (errors : list string) (record : Endpoint)
  : M (list string) :=
  let '(file_path, endpoint) := record in
  o <- get_self ;;
  paths <- lift (Py.getitem (schema o) "paths") ;;
  found <- lift (Py.contains endpoint paths) ;;
  if negb found then
    ret (errors ++ [not_found_error file_path endpoint])
  else
    log DEBUG (Py.fstring ["Endpoint '"; endpoint; "' found in schema."]) ;;
    paths <- lift (Py.getitem (schema o) "paths") ;;
    item <- lift (Py.getitem paths endpoint) ;;
    methods <- lift (Py.keys item) ;;
    if negb (existsb is_http_method methods) then
      ret (errors ++ [no_methods_error endpoint])
    else ret errors.

Fixpoint validate_loop (errors : list string) (records : list Endpoint)
  : M (list string) :=
  match records with
  | [] => ret errors
  | record :: rest =>
      errors' <- validate_endpoint errors record ;;
      validate_loop errors' rest
  end.

Definition validate_endpoints : M (list string) :=
  o <- get_self ;;
  if negb (Py.truthy (schema o)) then
    log ERROR "Schema not loaded. Call load_schema() first." ;;
    ret ["Schema not loaded."]
  else
    has_paths <- lift (Py.contains "paths" (schema o)) ;;
    if negb has_paths then
      log WARNING "No 'paths' defined in the schema.  Cannot validate endpoints." ;;
      ret ["No paths defined in schema"]
    else
      validate_loop [] (endpoints o).

(** [main], from the line after [parser.parse_args()] on, for the parsed
    arguments [args] (the two lines before it are in [entry] below).  The
    result is the exit status of the process and the trace of the run:
    [sys.exit(1)] in the [try] is not an [Exception] and leaves with status
    1, the [except] clause logs and leaves with status 1, and a normal
    return is status 0. *)
Record Args : Type := mkArgs {
  arg_code_path : string;
  arg_schema_path : string;
  arg_verbose : bool
}.

Definition main_body : M Z :=
  load_schema ;;
  find_endpoints ;;
  errors <- validate_endpoints ;;
  match errors with
  | _ :: _ =>
      log ERROR "API Endpoint Validation Failed:" ;;
      for_each errors (log ERROR) ;;
      ret 1%Z
  | [] =>
      log INFO "API Endpoint Validation Passed." ;;
      ret 0%Z
  end.

Definition main (args : Args) : Z * list event :=
  let verbose_trace :=
    if arg_verbose args then [Logged DEBUG "Verbose logging enabled." None] else [] in
  let st0 := mkSt (init (arg_code_path args) (arg_schema_path args)) verbose_trace in
  match main_body st0 with
  | (Ok status, st) => (status, trace st)
  | (Raise e, st) =>
      (1%Z, trace st ++ [Logged CRITICAL "An unexpected error occurred: " (Some e)])
  end.

End Program.

(** ** [validate_endpoints] as a function of the schema and the records *)

(** The errors that one record adds. *)
Definition verdict (sch : Value) (record : Endpoint) : result (list string) :=
  let '(file_path, endpoint) := record in
  match Py.getitem sch "paths" with
  | Raise e => Raise e
  | Ok paths =>
      match Py.contains endpoint paths with
      | Raise e => Raise e
      | Ok false => Ok [not_found_error file_path endpoint]
      | Ok true =>
          match Py.getitem paths endpoint with
          | Raise e => Raise e
          | Ok item =>
              match Py.keys item with
              | Raise e => Raise e
              | Ok methods =>
                  if existsb is_http_method methods then Ok []
                  else Ok [no_methods_error endpoint]
              end
          end
      end
  end.

Fixpoint verdicts (sch : Value) (records : list Endpoint) : result (list string) :=
  match records with
  | [] => Ok []
  | record :: rest =>
      match verdict sch record with
      | Raise e => Raise e
      | Ok errs =>
          match verdicts sch rest with
          | Raise e => Raise e
          | Ok more => Ok (errs ++ more)
          end
      end
  end.

Definition extend_ok (errors : list string) (r : result (list string))
  : result (list string) :=
  match r with
  | Ok errs => Ok (errors ++ errs)
  | Raise e => Raise e
  end.

Definition validation (sch : Value) (records : list Endpoint) : result (list string) :=
  if Py.truthy sch then
    match Py.contains "paths" sch with
    | Raise e => Raise e
    | Ok false => Ok ["No paths defined in schema"]
    | Ok true => verdicts sch records
    end
  else Ok ["Schema not loaded."].

(** ** [load_schema] and [find_endpoints] as functions of the environment *)

Definition with_schema (o : Validator) (v : Value) : Validator :=
  mkValidator (code_path o) (schema_path o) (endpoints o) v.

Definition with_endpoints (o : Validator) (records : list Endpoint) : Validator :=
  mkValidator (code_path o) (schema_path o) records (schema o).

Definition is_yaml (path : string) : bool :=
  Py.endswith path ".yaml" || Py.endswith path ".yml".

Definition is_json (path : string) : bool := Py.endswith path ".json".

Section Readings.

Variable fs_open : string -> result file.
Variable os_walk : string -> list (string * list string * list string).
Variable yaml_safe_load : string -> string + Value.
Variable json_load : string -> string + Value.

Definition parsed (parser : string -> string + Value) (error : string -> exn)
           (f : file) : result Value :=
  match f with
  | Unreadable e => Raise e
  | Text content =>
      match parser content with
      | inl diagnostic => Raise (error diagnostic)
      | inr v => Ok v
      end
  end.

(** What [load_schema] stores in [self.schema], or the exception it
    raises. *)
Definition loaded (path : string) : result Value :=
  match fs_open path with
  | Raise e => Raise e
  | Ok f =>
      if is_yaml path then parsed yaml_safe_load YAMLError f
      else if is_json path then parsed json_load JSONDecodeError f
      else Raise unsupported_format
  end.

(** The records that the scan of one file adds, and the exception that
    ends the scan there, if any. *)
Definition scanned_file (root name : string) : list Endpoint * option exn :=
  if Py.endswith name ".py" then
    let file_path := Py.path_join root name in
    match fs_open file_path with
    | Raise e => ([], Some e)
    | Ok (Unreadable e) => ([], Some e)
    | Ok (Text content) =>
        (map (fun endpoint => (file_path, endpoint)) (Re.findall content), None)
    end
  else ([], None).

Fixpoint scanned_files (root : string) (names : list string)
  : list Endpoint * option exn :=
  match names with
  | [] => ([], None)
  | name :: rest =>
      match scanned_file root name with
      | (records, Some e) => (records, Some e)
      | (records, None) =>
          let '(more, failure) := scanned_files root rest in
          (records ++ more, failure)
      end
  end.

Fixpoint scanned_walk (triples : list (string * list string * list string))
  : list Endpoint * option exn :=
  match triples with
  | [] => ([], None)
  | (root, _, files) :: rest =>
      match scanned_files root files with
      | (records, Some e) => (records, Some e)
      | (records, None) =>
          let '(more, failure) := scanned_walk rest in
          (records ++ more, failure)
      end
  end.

Definition scanned (top : string) : list Endpoint * option exn :=
  scanned_walk (os_walk top).

(** The paths that the scan passes to [open], in order: the scan stops
    at the first failure. *)
Definition opened_file (root name : string) : list string :=
  if Py.endswith name ".py" then [Py.path_join root name] else [].

Fixpoint opened_files (root : string) (names : list string) : list string :=
  match names with
  | [] => []
  | name :: rest =>
      opened_file root name
      ++ match snd (scanned_file root name) with
         | Some _ => []
         | None => opened_files root rest
         end
  end.

Fixpoint opened_walk (triples : list (string * list string * list string))
  : list string :=
  match triples with
  | [] => []
  | (root, _, files) :: rest =>
      opened_files root files
      ++ match snd (scanned_files root files) with
         | Some _ => []
         | None => opened_walk rest
         end
  end.

(** [open] or [read] fails on the file. *)
Definition cannot_read (path : string) : bool :=
  match fs_open path with
  | Ok (Text _) => false
  | _ => true
  end.

(** [open] or [read] raises [e] on the file. *)
Definition fails_with (path : string) (e : exn) : Prop :=
  fs_open path = Raise e \/ fs_open path = Ok (Unreadable e).

(** The last of the paths [opened] fails with [e] and the ones before
    it were read. *)
Definition stops_at (opened : list string) (e : exn) : Prop :=
  exists before bad,
    opened = before ++ [bad] /\ fails_with bad e
    /\ Forall (fun path => cannot_read path = false) before.

(** The state after [n] calls of [find_endpoints] on the same object,
    whatever each call returns or raises. *)
Fixpoint find_endpoints_times (n : nat) (st : St) : St :=
  match n with
  | O => st
  | S k => find_endpoints_times k (state_after (find_endpoints fs_open os_walk) st)
  end.

(** The state in which [main] starts its [try]. *)
Definition main_start (args : Args) : St :=
  mkSt (init (arg_code_path args) (arg_schema_path args))
       (if arg_verbose args then [Logged DEBUG "Verbose logging enabled." None] else []).

End Readings.

Definition outcome (failure : option exn) : result unit :=
  match failure with
  | None => Ok tt
  | Some e => Raise e
  end.

(** [m] adds [fst scan] to [self.endpoints], returns or raises as
    [snd scan] says, and calls [open] on the paths [opened]. *)
Definition runs_as (m : M unit) (scan : list Endpoint * option exn)
           (opened : list string) : Prop :=
  forall st,
    m st = (outcome (snd scan),
            mkSt (with_endpoints (self st) (endpoints (self st) ++ fst scan))
                 (trace st ++ map Open opened)).

(** What [main] logs after the validation, and the status it leaves with. *)
Definition report (errors : list string) : list event :=
  match errors with
  | [] => [Logged INFO "API Endpoint Validation Passed." None]
  | _ :: _ =>
      Logged ERROR "API Endpoint Validation Failed:" None
      :: map (fun error => Logged ERROR error None) errors
  end.

Definition status_of (errors : list string) : Z :=
  match errors with
  | [] => 0%Z
  | _ :: _ => 1%Z
  end.

Definition Endpoint_eq_dec (a b : Endpoint) : {a = b} + {a <> b}.
Proof. decide equality; apply string_dec. Defined.

Definition critical (e : exn) : event :=
  Logged CRITICAL "An unexpected error occurred: " (Some e).

(** ** The shapes of the data model *)

Definition is_mapping (v : Value) : bool :=
  match v with
  | VDict _ => true
  | _ => false
  end.

(** The schema of the data model: nothing, or a mapping whose entry
    [paths], when there is one, maps every path to a mapping. *)
Definition well_shaped (sch : Value) : bool :=
  match sch with
  | VNone => true
  | VDict entries =>
      match Py.dict_get "paths" entries with
      | None => true
      | Some (VDict paths) => forallb is_mapping (map snd paths)
      | Some _ => false
      end
  | _ => false
  end.

(** The error that the specification gives to one record, for the mapping
    [paths] of the schema: the path is not a key, or it is a key and none of
    the keys under it is an HTTP method. *)
Definition expected_error (paths : list (Key * Value)) (record : Endpoint)
  : option string :=
  let '(source_location, path) := record in
  match Py.dict_get path paths with
  | None => Some (not_found_error source_location path)
  | Some methods =>
      match Py.keys methods with
      | Ok keys => if existsb is_http_method keys then None
                   else Some (no_methods_error path)
      | Raise _ => None
      end
  end.

Definition option_list {A} (o : option A) : list A :=
  match o with
  | Some a => [a]
  | None => []
  end.

Definition expected_errors (paths : list (Key * Value)) (records : list Endpoint)
  : list string :=
  flat_map (fun record => option_list (expected_error paths record)) records.

(** ** Sample documents and a sample environment *)

Module Sample.

(** [{paths: {/users: {get: {}}}}] *)
Definition users_get : Value :=
  VDict [(KStr "paths", VDict [(KStr "/users", VDict [(KStr "get", VDict [])])])].

(** [{paths: {}}] *)
Definition empty_paths : Value := VDict [(KStr "paths", VDict [])].

(** [{paths: {/users: {}}}] *)
Definition users_no_methods : Value :=
  VDict [(KStr "paths", VDict [(KStr "/users", VDict [])])].

(** [{paths: {/users: null}}], as YAML gives for a path with nothing
    under it. *)
Definition users_null : Value :=
  VDict [(KStr "paths", VDict [(KStr "/users", VNone)])].

(** [{info: {}, paths: {}}] *)
Definition info_and_empty_paths : Value :=
  VDict [(KStr "info", VDict []); (KStr "paths", VDict [])].

(** [{info: {}}] *)
Definition info_only : Value := VDict [(KStr "info", VDict [])].

Definition state (sch : Value) (records : list Endpoint) : St :=
  mkSt (mkValidator "src" "schema.yaml" records sch) [].

Definition quoted (s : string) : string :=
  String Re.dquote (String.append s (String Re.dquote EmptyString)).

(** The JSON text of [empty_paths]. *)
Definition json_empty_paths : string :=
  Py.fstring ["{"; quoted "paths"; ": {}}"].

Definition fs_open (path : string) : result file :=
  if String.eqb path "schema.yaml" then Ok (Text "paths: {}")
  else if String.eqb path "schema.yml" then Ok (Text "paths:")
  else if String.eqb path "schema.json" then Ok (Text json_empty_paths)
  else if String.eqb path "empty.json" then Ok (Text "{}")
  else if String.eqb path "broken.yaml" then Ok (Text "paths: [")
  else if String.eqb path "broken.json" then Ok (Text "{")
  else if String.eqb path "schema.txt" then Ok (Text "paths: {}")
  else if String.eqb path "src/app.py" then
    Ok (Text "@app.route('/users')
def users(): pass
@app.route('/items')
def items(): pass")
  else if String.eqb path "src/api/locked.py" then Raise (OSError "Permission denied")
  else Raise (FileNotFoundError path).

Definition os_walk (top : string) : list (string * list string * list string) :=
  if String.eqb top "src" then
    [("src", ["api"], ["app.py"; "README.md"]); ("src/api", [], ["locked.py"])]
  else if String.eqb top "." then [(".", [], ["a.py"])]
  else [].

(** A tree in which every Python file can be read. *)
Definition os_walk_readable (top : string) : list (string * list string * list string) :=
  if String.eqb top "src" then [("src", [], ["app.py"; "README.md"])] else [].

Definition yaml_safe_load (text : string) : string + Value :=
  if String.eqb text "paths: {}" then inr empty_paths
  else if String.eqb text "paths:" then inr (VDict [(KStr "paths", VNone)])
  else if String.eqb text "" then inr VNone
  else inl "while parsing a flow node".

Definition json_load (text : string) : string + Value :=
  if String.eqb text json_empty_paths then inr info_and_empty_paths
  else if String.eqb text "{}" then inr (VDict [])
  else inl "Expecting value".

(** A second file system, for the run of scenario B: one source file
    with one route. *)
Definition fs_open_b (path : string) : result file :=
  if String.eqb path "schema.yaml" then Ok (Text "paths: {}")
  else if String.eqb path "./a.py" then Ok (Text "@app.route('/users')")
  else Raise (FileNotFoundError path).

End Sample.

(** ** Notions for the further properties *)

Fixpoint all_chars (p : ascii -> bool) (s : string) : bool :=
  match s with
  | EmptyString => true
  | String c rest => p c && all_chars p rest
  end.

(** Neither a quote nor a newline: what the group of the pattern can
    hold. *)
Definition plain (c : ascii) : bool :=
  negb (Re.is_quote c) && negb (Ascii.eqb c Re.newline).

Definition not_at (c : ascii) : bool := negb (Ascii.eqb c "@").

Definition is_python (name : string) : bool := Py.endswith name ".py".

(** The paths of the Python files of a walk, in the order of the walk. *)
Definition python_files (triples : list (string * list string * list string))
  : list string :=
  flat_map (fun '(root, _, files) => map (Py.path_join root) (filter is_python files))
           triples.

(** The records of one readable file. *)
Definition routes_in (fs_open : string -> result file) (path : string) : list Endpoint :=
  match fs_open path with
  | Ok (Text content) => map (fun endpoint => (path, endpoint)) (Re.findall content)
  | _ => []
  end.

Definition is_scalar (v : Value) : bool :=
  match v with
  | VNone | VBool _ | VInt _ | VFloat _ => true
  | _ => false
  end.

(** The entry of [paths] that a record names is a mapping, if there is
    one. *)
Definition names_mapping (paths : list (Key * Value)) (record : Endpoint) : bool :=
  match Py.dict_get (snd record) paths with
  | Some v => is_mapping v
  | None => true
  end.

(** The path of the record is a key of [paths] and one of the keys under
    it is an HTTP method. *)
Definition declared (paths : list (Key * Value)) (record : Endpoint) : bool :=
  match Py.dict_get (snd record) paths with
  | Some (VDict methods) => existsb is_http_method (map fst methods)
  | _ => false
  end.

Definition with_verbose (args : Args) (verbose : bool) : Args :=
  mkArgs (arg_code_path args) (arg_schema_path args) verbose.

Definition is_log (ev : event) : bool :=
  match ev with
  | Logged _ _ _ => true
  | Open _ => false
  end.

Definition readable (fs_open : string -> result file) (path : string) : bool :=
  negb (cannot_read fs_open path).

(** The exit status of a run as a function of the environment and the
    two paths: 1 when a stage raises, otherwise 0 or 1 as the list of
    errors is empty or not. *)
Definition exit_status (fs_open : string -> result file)
           (os_walk : string -> list (string * list string * list string))
           (yaml_safe_load json_load : string -> string + Value) (args : Args) : Z :=
  match loaded fs_open yaml_safe_load json_load (arg_schema_path args) with
  | Raise _ => 1%Z
  | Ok document =>
      match scanned fs_open os_walk (arg_code_path args) with
      | (_, Some _) => 1%Z
      | (records, None) =>
          match validation document records with
          | Ok [] => 0%Z
          | _ => 1%Z
          end
      end
  end.

(** ** The whole of [main] *)

(** What [parser.parse_args()] does with a command line: it returns the
    parsed arguments, or it prints the help and exits with status 0, or it
    prints a usage error and exits with status 2. *)
Inductive parse_outcome : Type :=
| Parsed (args : Args)
| HelpRequested
| UsageError.

(** [main] from its first line: [parse_args] is called outside the [try],
    so its exits end the process at once, with nothing opened and nothing
    logged. *)
Definition entry (fs_open : string -> result file)
           (os_walk : string -> list (string * list string * list string))
           (yaml_safe_load json_load : string -> string + Value)
           (parse_args : list string -> parse_outcome) (argv : list string)
  : Z * list event :=
  match parse_args argv with
  | Parsed args => main fs_open os_walk yaml_safe_load json_load args
  | HelpRequested => (0%Z, [])
  | UsageError => (2%Z, [])
  end.

(** * Properties *)

(** ** Examples: the pattern and the string tests *)

Example findall_routes :
  Re.findall "x@app.route('/users')
@app.route('/a/b', methods=['GET'])
@app.route('/open
') @app.route(@app.route('q')" = ["/users"; "/a/b"; "q"].
Proof. vm_compute. reflexivity. Qed.

Example endswith_examples :
  Py.endswith "a.yaml" ".yaml" = true /\ Py.endswith "yaml" ".yaml" = false
  /\ Py.endswith ".py" ".py" = true /\ Py.endswith "a.pyc" ".py" = false.
Proof. vm_compute. auto. Qed.

Example http_methods_case_sensitive :
  is_http_method (KStr "get") = true /\ is_http_method (KStr "GET") = false
  /\ is_http_method (KInt 1) = false.
Proof. vm_compute. auto. Qed.

(** ** The monad *)

Ltac unfold_monad :=
  unfold result_of, state_after, bind, ret, raise, lift, try_except, get_self,
    log, log_exn, emit, set_schema, extend_endpoints in *.

Lemma validate_endpoint_verdict errors record st :
  exists st',
    validate_endpoint errors record st
    = (extend_ok errors (verdict (schema (self st)) record), st')
    /\ self st' = self st.
Proof.
  destruct record as [file_path endpoint].
  unfold validate_endpoint, verdict. unfold_monad. simpl.
  destruct (Py.getitem (schema (self st)) "paths") as [paths|e]; simpl; [|eauto].
  destruct (Py.contains endpoint paths) as [[|]|e]; simpl; [| eauto | eauto].
  destruct (Py.getitem paths endpoint) as [item|e]; simpl; [|eauto].
  destruct (Py.keys item) as [methods|e]; simpl; [|eauto].
  destruct (existsb is_http_method methods); simpl; [|eauto].
  rewrite app_nil_r. eauto.
Qed.

Lemma validate_loop_verdicts records : forall errors st,
  exists st',
    validate_loop errors records st
    = (extend_ok errors (verdicts (schema (self st)) records), st')
    /\ self st' = self st.
Proof.
  induction records as [|record rest IH]; intros errors st; simpl.
  - exists st. unfold ret. rewrite app_nil_r. auto.
  - destruct (validate_endpoint_verdict errors record st) as (st1 & E1 & S1).
    unfold bind. rewrite E1.
    destruct (verdict (schema (self st)) record) as [errs|e]; simpl.
    + destruct (IH (errors ++ errs) st1) as (st2 & E2 & S2).
      rewrite E2, S1. exists st2. split; [|congruence].
      destruct (verdicts (schema (self st)) rest); simpl; [|reflexivity].
      rewrite app_assoc. reflexivity.
    + eauto.
Qed.

Lemma validate_endpoints_run st :
  exists st',
    validate_endpoints st = (validation (schema (self st)) (endpoints (self st)), st')
    /\ self st' = self st.
Proof.
  unfold validate_endpoints, validation.
  unfold bind at 1. unfold get_self at 1.
  destruct (Py.truthy (schema (self st))); simpl.
  - unfold bind at 1. unfold lift at 1.
    destruct (Py.contains "paths" (schema (self st))) as [[|]|e]; simpl.
    + destruct (validate_loop_verdicts (endpoints (self st)) [] st) as (st' & E & S).
      rewrite E. exists st'. split; [|exact S].
      destruct (verdicts (schema (self st)) (endpoints (self st))); reflexivity.
    + unfold_monad. simpl. eauto.
    + eauto.
  - unfold_monad. simpl. eauto.
Qed.

(** The result of [validate_endpoints] is a function of [self.schema] and
    [self.endpoints], and the call leaves the object as it was. *)
Lemma validate_endpoints_validation st :
  result_of validate_endpoints st = validation (schema (self st)) (endpoints (self st))
  /\ self (state_after validate_endpoints st) = self st.
Proof.
  destruct (validate_endpoints_run st) as (st' & E & S).
  unfold result_of, state_after. rewrite E. auto.
Qed.

Lemma verdicts_app sch records1 records2 :
  verdicts sch (records1 ++ records2)
  = match verdicts sch records1 with
    | Raise e => Raise e
    | Ok errs => extend_ok errs (verdicts sch records2)
    end.
Proof.
  induction records1 as [|record rest IH]; simpl.
  - destruct (verdicts sch records2); reflexivity.
  - destruct (verdict sch record) as [errs|e]; [|reflexivity].
    rewrite IH. destruct (verdicts sch rest) as [more|e]; [|reflexivity].
    destruct (verdicts sch records2); simpl; [|reflexivity].
    rewrite app_assoc. reflexivity.
Qed.

(** ** [load_schema] *)

Section LoadSchema.

Variable fs_open : string -> result file.
Variable yaml_safe_load : string -> string + Value.
Variable json_load : string -> string + Value.

Lemma load_schema_body_run st :
  load_schema_body fs_open yaml_safe_load json_load st
  = let st1 := mkSt (self st) (trace st ++ [Open (schema_path (self st))]) in
    match loaded fs_open yaml_safe_load json_load (schema_path (self st)) with
    | Ok v => (Ok tt, mkSt (with_schema (self st) v) (trace st1))
    | Raise e => (Raise e, st1)
    end.
Proof.
  unfold loaded, load_schema_body, open_, parse, parsed, read, is_yaml, is_json.
  unfold_monad. simpl.
  destruct (fs_open (schema_path (self st))) as [[e|content]|e]; simpl;
    destruct (Py.endswith (schema_path (self st)) ".yaml"
              || Py.endswith (schema_path (self st)) ".yml");
    try destruct (Py.endswith (schema_path (self st)) ".json");
    try destruct (yaml_safe_load content); try destruct (json_load content);
    reflexivity.
Qed.

Lemma handler_raises e st :
  exists msg oe,
    load_schema_handler e st
    = (Raise e, mkSt (self st) (trace st ++ [Logged ERROR msg oe])).
Proof.
  unfold load_schema_handler. unfold_monad.
  destruct e; simpl; eauto.
Qed.

(** A call either stores the parsed document, after one [open], or raises
    after one [open] and one logged error, the object being as before. *)
Lemma load_schema_run st :
  match loaded fs_open yaml_safe_load json_load (schema_path (self st)) with
  | Ok v =>
      load_schema fs_open yaml_safe_load json_load st
      = (Ok tt, mkSt (with_schema (self st) v)
                     (trace st ++ [Open (schema_path (self st))]))
  | Raise e =>
      exists msg oe,
        load_schema fs_open yaml_safe_load json_load st
        = (Raise e, mkSt (self st)
                         (trace st ++ [Open (schema_path (self st)); Logged ERROR msg oe]))
  end.
Proof.
  unfold load_schema, try_except. rewrite load_schema_body_run. simpl.
  destruct (loaded fs_open yaml_safe_load json_load (schema_path (self st))) as [v|e];
    [reflexivity|].
  destruct (handler_raises e
              (mkSt (self st) (trace st ++ [Open (schema_path (self st))])))
    as (msg & oe & H).
  exists msg, oe. rewrite H. simpl. rewrite <- app_assoc. reflexivity.
Qed.

Lemma load_schema_result st :
  result_of (load_schema fs_open yaml_safe_load json_load) st
  = match loaded fs_open yaml_safe_load json_load (schema_path (self st)) with
    | Ok _ => Ok tt
    | Raise e => Raise e
    end.
Proof.
  pose proof (load_schema_run st) as H. unfold result_of.
  destruct (loaded fs_open yaml_safe_load json_load (schema_path (self st))).
  - rewrite H. reflexivity.
  - destruct H as (msg & oe & H). rewrite H. reflexivity.
Qed.

Lemma load_schema_self st :
  self (state_after (load_schema fs_open yaml_safe_load json_load) st)
  = match loaded fs_open yaml_safe_load json_load (schema_path (self st)) with
    | Ok v => with_schema (self st) v
    | Raise _ => self st
    end.
Proof.
  pose proof (load_schema_run st) as H. unfold state_after.
  destruct (loaded fs_open yaml_safe_load json_load (schema_path (self st))).
  - rewrite H. reflexivity.
  - destruct H as (msg & oe & H). rewrite H. reflexivity.
Qed.

End LoadSchema.

(** ** [find_endpoints] *)

Lemma with_endpoints_nil o : with_endpoints o (endpoints o ++ []) = o.
Proof. destruct o. unfold with_endpoints. simpl. rewrite app_nil_r. reflexivity. Qed.

Lemma with_endpoints_app o records more :
  with_endpoints (with_endpoints o (endpoints o ++ records))
                 (endpoints (with_endpoints o (endpoints o ++ records)) ++ more)
  = with_endpoints o (endpoints o ++ records ++ more).
Proof. unfold with_endpoints. simpl. rewrite app_assoc. reflexivity. Qed.

Section FindEndpoints.

Variable fs_open : string -> result file.
Variable os_walk : string -> list (string * list string * list string).

Lemma scan_file_run root name :
  runs_as (scan_file fs_open root name) (scanned_file fs_open root name)
          (opened_file root name).
Proof.
  intros st. unfold scan_file, scanned_file, opened_file, open_, read.
  destruct (Py.endswith name ".py").
  - unfold_monad. simpl.
    destruct (fs_open (Py.path_join root name)) as [[e|content]|e]; simpl;
      try rewrite with_endpoints_nil; reflexivity.
  - unfold ret. simpl. rewrite with_endpoints_nil, app_nil_r. destruct st. reflexivity.
Qed.

Lemma for_each_files_run root names :
  runs_as (for_each names (scan_file fs_open root)) (scanned_files fs_open root names)
          (opened_files fs_open root names).
Proof.
  induction names as [|name rest IH]; intros st; simpl.
  - unfold ret. rewrite with_endpoints_nil, app_nil_r. destruct st. reflexivity.
  - unfold bind. rewrite (scan_file_run root name st).
    destruct (scanned_file fs_open root name) as [records [e|]]; simpl.
    + rewrite app_nil_r. reflexivity.
    + rewrite IH. simpl.
      destruct (scanned_files fs_open root rest) as [more failure]. simpl.
      unfold with_endpoints. simpl. rewrite ?map_app, <- ?app_assoc. reflexivity.
Qed.

Lemma for_each_walk_run triples :
  runs_as (for_each triples (fun '(root, _, files) => for_each files (scan_file fs_open root)))
          (scanned_walk fs_open triples) (opened_walk fs_open triples).
Proof.
  induction triples as [|[[root dirs] files] rest IH]; intros st; simpl.
  - unfold ret. rewrite with_endpoints_nil, app_nil_r. destruct st. reflexivity.
  - unfold bind. rewrite (for_each_files_run root files st).
    destruct (scanned_files fs_open root files) as [records [e|]]; simpl.
    + rewrite app_nil_r. reflexivity.
    + rewrite IH. simpl.
      destruct (scanned_walk fs_open rest) as [more failure]. simpl.
      unfold with_endpoints. simpl. rewrite ?map_app, <- ?app_assoc. reflexivity.
Qed.

(** One call appends the records found before the first failure and
    raises that failure, if there is one, after logging it. *)
Lemma find_endpoints_run st :
  let top := code_path (self st) in
  find_endpoints fs_open os_walk st
  = (outcome (snd (scanned fs_open os_walk top)),
     mkSt (with_endpoints (self st) (endpoints (self st) ++ fst (scanned fs_open os_walk top)))
          (trace st ++ map Open (opened_walk fs_open (os_walk top))
           ++ match snd (scanned fs_open os_walk top) with
              | Some e => [Logged ERROR "Error finding endpoints: " (Some e)]
              | None => []
              end)).
Proof.
  unfold find_endpoints, find_endpoints_body, try_except, scanned.
  unfold bind at 1. unfold get_self at 1.
  rewrite (for_each_walk_run (os_walk (code_path (self st))) st).
  destruct (snd (scanned_walk fs_open (os_walk (code_path (self st))))) as [e|]; simpl.
  - unfold_monad. simpl. rewrite <- app_assoc. reflexivity.
  - rewrite app_nil_r. reflexivity.
Qed.

Lemma find_endpoints_result st :
  result_of (find_endpoints fs_open os_walk) st
  = outcome (snd (scanned fs_open os_walk (code_path (self st)))).
Proof.
  unfold result_of. rewrite find_endpoints_run. reflexivity.
Qed.

Lemma find_endpoints_self st :
  self (state_after (find_endpoints fs_open os_walk) st)
  = with_endpoints (self st)
      (endpoints (self st) ++ fst (scanned fs_open os_walk (code_path (self st)))).
Proof.
  unfold state_after. rewrite find_endpoints_run. reflexivity.
Qed.

(** An unreadable Python file in the walk makes the scan fail. *)
Lemma scanned_files_fail root names name :
  In name names -> Py.endswith name ".py" = true ->
  cannot_read fs_open (Py.path_join root name) = true ->
  exists e, snd (scanned_files fs_open root names) = Some e.
Proof.
  intros Hin Hpy Hbad. induction names as [|first rest IH]; [contradiction|].
  simpl. destruct (scanned_file fs_open root first) as [records [e|]] eqn:E; [simpl; eauto|].
  destruct Hin as [->|Hin].
  - unfold scanned_file, cannot_read in *. rewrite Hpy in E.
    destruct (fs_open (Py.path_join root name)) as [[e|content]|e]; discriminate.
  - destruct (IH Hin) as (e & He).
    destruct (scanned_files fs_open root rest) as [more failure]. simpl in *. eauto.
Qed.

Lemma scanned_walk_fail triples root dirs files name :
  In (root, dirs, files) triples -> In name files -> Py.endswith name ".py" = true ->
  cannot_read fs_open (Py.path_join root name) = true ->
  exists e, snd (scanned_walk fs_open triples) = Some e.
Proof.
  intros Hin Hname Hpy Hbad. induction triples as [|[[root' dirs'] files'] rest IH];
    [contradiction|].
  simpl. destruct (scanned_files fs_open root' files') as [records [e|]] eqn:E; [simpl; eauto|].
  destruct Hin as [Heq|Hin].
  - inversion Heq; subst.
    destruct (scanned_files_fail root files name Hname Hpy Hbad) as (e & He).
    rewrite E in He. discriminate.
  - destruct (IH Hin) as (e & He).
    destruct (scanned_walk fs_open rest) as [more failure]. simpl in *. eauto.
Qed.

(** [n] calls append the records of one scan [n] times. *)
Lemma find_endpoints_times_self n : forall st,
  self (find_endpoints_times fs_open os_walk n st)
  = with_endpoints (self st)
      (endpoints (self st)
       ++ concat (repeat (fst (scanned fs_open os_walk (code_path (self st)))) n)).
Proof.
  induction n as [|n IH]; intros st; simpl.
  - rewrite with_endpoints_nil. reflexivity.
  - rewrite IH, find_endpoints_self. simpl.
    unfold with_endpoints. simpl. rewrite <- app_assoc. reflexivity.
Qed.

End FindEndpoints.

(** ** [main] *)

Lemma for_each_log lvl messages : forall st,
  for_each messages (log lvl) st
  = (Ok tt, mkSt (self st) (trace st ++ map (fun m => Logged lvl m None) messages)).
Proof.
  induction messages as [|m rest IH]; intros st; simpl.
  - unfold ret. rewrite app_nil_r. destruct st; reflexivity.
  - unfold bind, log, emit. rewrite IH. simpl. rewrite <- app_assoc. reflexivity.
Qed.

Section Main.

Variable fs_open : string -> result file.
Variable os_walk : string -> list (string * list string * list string).
Variable yaml_safe_load : string -> string + Value.
Variable json_load : string -> string + Value.

(** The run, stage by stage: an exception of a stage ends the run with
    status 1 and the later stages are not entered. *)
Lemma main_run args :
  main fs_open os_walk yaml_safe_load json_load args
  = match load_schema fs_open yaml_safe_load json_load (main_start args) with
    | (Raise e, st1) => (1%Z, trace st1 ++ [critical e])
    | (Ok _, st1) =>
        match find_endpoints fs_open os_walk st1 with
        | (Raise e, st2) => (1%Z, trace st2 ++ [critical e])
        | (Ok _, st2) =>
            match validate_endpoints st2 with
            | (Raise e, st3) => (1%Z, trace st3 ++ [critical e])
            | (Ok errors, st3) => (status_of errors, trace st3 ++ report errors)
            end
        end
    end.
Proof.
  unfold main, main_body, main_start, critical.
  unfold bind at 1.
  destruct (load_schema _ _ _ _) as [[[]|e] st1]; [|reflexivity].
  unfold bind at 1.
  destruct (find_endpoints _ _ _) as [[[]|e] st2]; [|reflexivity].
  unfold bind at 1.
  destruct (validate_endpoints st2) as [[errors|e] st3]; [|reflexivity].
  destruct errors as [|error rest]; [reflexivity|].
  unfold bind. unfold log at 1. unfold emit at 1.
  rewrite for_each_log. unfold ret. simpl. rewrite <- app_assoc. reflexivity.
Qed.

Lemma main_load_fails args e :
  result_of (load_schema fs_open yaml_safe_load json_load) (main_start args) = Raise e ->
  main fs_open os_walk yaml_safe_load json_load args
  = (1%Z,
     trace (state_after (load_schema fs_open yaml_safe_load json_load) (main_start args))
     ++ [critical e]).
Proof.
  rewrite main_run. unfold result_of, state_after.
  destruct (load_schema fs_open yaml_safe_load json_load (main_start args))
    as [[[]|e'] st1]; simpl; congruence.
Qed.

Lemma main_find_fails args e st1 :
  result_of (load_schema fs_open yaml_safe_load json_load) (main_start args) = Ok tt ->
  state_after (load_schema fs_open yaml_safe_load json_load) (main_start args) = st1 ->
  result_of (find_endpoints fs_open os_walk) st1 = Raise e ->
  main fs_open os_walk yaml_safe_load json_load args
  = (1%Z, trace (state_after (find_endpoints fs_open os_walk) st1) ++ [critical e]).
Proof.
  rewrite main_run. unfold result_of, state_after.
  destruct (load_schema fs_open yaml_safe_load json_load (main_start args))
    as [[[]|e'] st]; simpl; [|discriminate].
  intros _ <-. destruct (find_endpoints fs_open os_walk st) as [[[]|e'] st2]; simpl; congruence.
Qed.

Lemma main_status_validated args errors st1 st2 :
  result_of (load_schema fs_open yaml_safe_load json_load) (main_start args) = Ok tt ->
  state_after (load_schema fs_open yaml_safe_load json_load) (main_start args) = st1 ->
  result_of (find_endpoints fs_open os_walk) st1 = Ok tt ->
  state_after (find_endpoints fs_open os_walk) st1 = st2 ->
  result_of validate_endpoints st2 = Ok errors ->
  fst (main fs_open os_walk yaml_safe_load json_load args) = status_of errors.
Proof.
  rewrite main_run. unfold result_of, state_after.
  destruct (load_schema fs_open yaml_safe_load json_load (main_start args))
    as [[[]|e'] st]; simpl; [|discriminate].
  intros _ <-. destruct (find_endpoints fs_open os_walk st) as [[[]|e'] st']; simpl;
    [|discriminate].
  intros _ <-. destruct (validate_endpoints st') as [[errs|e'] st3]; simpl; [|discriminate].
  intros H. inversion H. reflexivity.
Qed.

End Main.

(** ** Lookups *)

Lemma dict_get_existsb k entries :
  existsb (Py.key_is k) (map fst entries)
  = match Py.dict_get k entries with Some _ => true | None => false end.
Proof.
  induction entries as [|[key v] rest IH]; simpl; [reflexivity|].
  destruct (Py.key_is k key); simpl; auto.
Qed.

Lemma dict_get_In k entries v :
  Py.dict_get k entries = Some v -> In v (map snd entries).
Proof.
  induction entries as [|[key w] rest IH]; simpl; [discriminate|].
  destruct (Py.key_is k key); intros H.
  - inversion H. auto.
  - auto.
Qed.

(** On a schema of the data model's shape each record gets the error of
    the specification. *)
Lemma verdict_expected entries paths record :
  Py.dict_get "paths" entries = Some (VDict paths) ->
  forallb is_mapping (map snd paths) = true ->
  verdict (VDict entries) record = Ok (option_list (expected_error paths record)).
Proof.
  intros Hpaths Hshape. destruct record as [loc path].
  unfold verdict, expected_error. unfold Py.getitem at 1. rewrite Hpaths.
  unfold Py.contains. rewrite dict_get_existsb.
  unfold Py.getitem.
  destruct (Py.dict_get path paths) as [item|] eqn:E; [|reflexivity].
  apply dict_get_In in E. rewrite forallb_forall in Hshape.
  specialize (Hshape item E). destruct item as [| | | | | |methods]; try discriminate.
  simpl. destruct (existsb is_http_method (map fst methods)); reflexivity.
Qed.

Lemma verdicts_expected entries paths records :
  Py.dict_get "paths" entries = Some (VDict paths) ->
  forallb is_mapping (map snd paths) = true ->
  verdicts (VDict entries) records = Ok (expected_errors paths records).
Proof.
  intros Hpaths Hshape. induction records as [|record rest IH]; simpl; [reflexivity|].
  rewrite (verdict_expected _ record Hpaths Hshape), IH. reflexivity.
Qed.

Lemma expected_errors_length paths records :
  length (expected_errors paths records) <= length records.
Proof.
  induction records as [|record rest IH]; simpl; [lia|].
  rewrite length_app. destruct (expected_error paths record); simpl; lia.
Qed.

Lemma verdicts_repeat sch records errors n :
  verdicts sch records = Ok errors ->
  verdicts sch (concat (repeat records n)) = Ok (concat (repeat errors n)).
Proof.
  intros H. induction n as [|n IH]; simpl; [reflexivity|].
  rewrite verdicts_app, H, IH. reflexivity.
Qed.

Lemma count_occ_concat_repeat (records : list Endpoint) n r :
  count_occ Endpoint_eq_dec (concat (repeat records n)) r
  = n * count_occ Endpoint_eq_dec records r.
Proof.
  induction n as [|n IH]; simpl; [reflexivity|].
  rewrite count_occ_app, IH. reflexivity.
Qed.

(** ** The two precondition checks of [validate_endpoints] *)

Example scenarios_A_C_D :
  result_of validate_endpoints (Sample.state Sample.users_get [("a.py", "/users")]) = Ok []
  /\ result_of validate_endpoints (Sample.state Sample.users_get [("a.py", "/items")])
     = Ok ["Endpoint '/items' (defined in a.py) not found in schema."]
  /\ result_of validate_endpoints (Sample.state Sample.users_no_methods [("a.py", "/users")])
     = Ok ["Endpoint '/users' in schema does not define valid HTTP methods."].
Proof. vm_compute. auto. Qed.

(** C1 as stated fails: the empty mapping has no key [paths], and for the
    records [[("a.py", "/users")]] the call returns
    [["Schema not loaded."]], not [["No paths defined in schema"]]. *)
Lemma empty_mapping_reported_as_not_loaded :
  Py.contains "paths" (VDict []) = Ok false
  /\ result_of validate_endpoints (Sample.state (VDict []) [("a.py", "/users")])
     = Ok ["Schema not loaded."]
  /\ result_of validate_endpoints (Sample.state (VDict []) [("a.py", "/users")])
     <> Ok ["No paths defined in schema"].
Proof. split; [reflexivity|]. split; [reflexivity|]. vm_compute. discriminate. Qed.

(** C1, amended: for a schema that is a mapping with at least one entry
    and no key [paths], and for any records, [validate_endpoints] returns
    exactly [["No paths defined in schema"]]; it logs the one warning of
    that check and nothing else, so no record is looked at. *)
Theorem missing_paths_short_circuit st entry entries :
  schema (self st) = VDict (entry :: entries) ->
  Py.dict_get "paths" (entry :: entries) = None ->
  validate_endpoints st
  = (Ok ["No paths defined in schema"],
     mkSt (self st)
          (trace st ++ [Logged WARNING
                          "No 'paths' defined in the schema.  Cannot validate endpoints."
                          None])).
Proof.
  intros Hsch Hget. unfold validate_endpoints.
  unfold bind at 1. unfold get_self at 1. rewrite Hsch.
  change (Py.truthy (VDict (entry :: entries))) with true.
  unfold Py.contains. rewrite dict_get_existsb, Hget.
  reflexivity.
Qed.

Lemma missing_paths_short_circuit_witness :
  result_of validate_endpoints
    (Sample.state Sample.info_only [("a.py", "/users"); ("b.py", "/items")])
  = Ok ["No paths defined in schema"].
Proof.
  unfold result_of.
  rewrite (@missing_paths_short_circuit
             (Sample.state Sample.info_only [("a.py", "/users"); ("b.py", "/items")])
             (KStr "info", VDict []) [] eq_refl eq_refl).
  reflexivity.
Defined.

(** C5: when [self.schema] is [None], as [__init__] leaves it,
    [validate_endpoints] raises nothing and returns
    [["Schema not loaded."]], whatever the records are; so it does for the
    object just built. *)
Theorem validate_before_load :
  forall cp sp records tr,
    result_of validate_endpoints (mkSt (mkValidator cp sp records VNone) tr)
    = Ok ["Schema not loaded."]
    /\ result_of validate_endpoints (mkSt (init cp sp) tr) = Ok ["Schema not loaded."].
Proof. intros. split; reflexivity. Qed.

(** C3, amended: for a schema of the data model's shape (nothing, or a
    mapping whose [paths], if present, maps every path to a mapping) and
    any records, [validate_endpoints] returns a list, raises nothing and
    leaves the object as it was. *)
Theorem well_shaped_schema_never_raises st :
  well_shaped (schema (self st)) = true ->
  (exists errors, result_of validate_endpoints st = Ok errors)
  /\ self (state_after validate_endpoints st) = self st.
Proof.
  intros Hshape. destruct (validate_endpoints_validation st) as [R S].
  split; [|exact S]. rewrite R. clear R S.
  unfold validation. destruct (schema (self st)) as [| | | | | |entries];
    try discriminate Hshape.
  - simpl. eauto.
  - destruct entries as [|entry entries]; [simpl; eauto|].
    unfold Py.truthy, Py.contains. rewrite dict_get_existsb.
    unfold well_shaped in Hshape.
    destruct (Py.dict_get "paths" (entry :: entries)) as [v|] eqn:E; [|eauto].
    destruct v as [| | | | | |paths]; try discriminate Hshape.
    rewrite (verdicts_expected _ _ E Hshape). eauto.
Qed.

(** C4, amended: for a schema that is a mapping whose [paths] is a
    mapping from paths to mappings, [validate_endpoints] returns, in the
    order of the records, the error that the specification gives to each
    record, at most one per record: the not-found string when the path is
    not a key of [paths], the no-methods string when it is one and no key
    under it is an HTTP method, and nothing otherwise. *)
Theorem validate_well_shaped_schema st entries paths :
  schema (self st) = VDict entries ->
  Py.dict_get "paths" entries = Some (VDict paths) ->
  forallb is_mapping (map snd paths) = true ->
  result_of validate_endpoints st = Ok (expected_errors paths (endpoints (self st)))
  /\ length (expected_errors paths (endpoints (self st))) <= length (endpoints (self st))
  /\ (forall loc path,
        Py.dict_get path paths = None ->
        expected_error paths (loc, path)
        = Some (String.append "Endpoint '"
                 (String.append path
                   (String.append "' (defined in "
                     (String.append loc ") not found in schema.")))))
  /\ (forall loc path methods,
        Py.dict_get path paths = Some (VDict methods) ->
        existsb is_http_method (map fst methods) = false ->
        expected_error paths (loc, path)
        = Some (String.append "Endpoint '"
                 (String.append path "' in schema does not define valid HTTP methods.")))
  /\ (forall loc path methods,
        Py.dict_get path paths = Some (VDict methods) ->
        existsb is_http_method (map fst methods) = true ->
        expected_error paths (loc, path) = None).
Proof.
  intros Hsch Hpaths Hshape. destruct (validate_endpoints_validation st) as [R _].
  split; [|split; [apply expected_errors_length|]].
  - rewrite R, Hsch. unfold validation, Py.contains.
    rewrite dict_get_existsb, Hpaths.
    replace (Py.truthy (VDict entries)) with true
      by (destruct entries; [discriminate Hpaths|reflexivity]).
    apply verdicts_expected; assumption.
  - unfold expected_error. repeat split.
    + intros loc path Hget. rewrite Hget. reflexivity.
    + intros loc path methods Hget Hnone. rewrite Hget. simpl. rewrite Hnone. reflexivity.
    + intros loc path methods Hget Hsome. rewrite Hget. simpl. rewrite Hsome. reflexivity.
Qed.

(** ** Where a failing scan stops *)

Section ScanFailure.

Variable fs_open : string -> result file.

Lemma opened_file_cases root name :
  match snd (scanned_file fs_open root name) with
  | Some e => opened_file root name = [Py.path_join root name]
              /\ fails_with fs_open (Py.path_join root name) e
  | None => Forall (fun path => cannot_read fs_open path = false) (opened_file root name)
  end.
Proof.
  unfold scanned_file, opened_file, fails_with, cannot_read.
  destruct (Py.endswith name ".py"); simpl; [|constructor].
  destruct (fs_open (Py.path_join root name)) as [[e|content]|e] eqn:E; simpl; auto.
  repeat constructor. rewrite E. reflexivity.
Qed.

Lemma opened_files_cases root names :
  match snd (scanned_files fs_open root names) with
  | Some e => stops_at fs_open (opened_files fs_open root names) e
  | None => Forall (fun path => cannot_read fs_open path = false) (opened_files fs_open root names)
  end.
Proof.
  induction names as [|name rest IH]; simpl; [constructor|].
  pose proof (opened_file_cases root name) as Hfile.
  destruct (scanned_file fs_open root name) as [records [e|]]; simpl in *.
  - destruct Hfile as [Hopen Hfail]. rewrite Hopen.
    exists [], (Py.path_join root name). auto.
  - destruct (scanned_files fs_open root rest) as [more [e|]]; simpl in *.
    + destruct IH as (before & bad & Hopen & Hfail & Hread).
      exists (opened_file root name ++ before), bad.
      rewrite Hopen, app_assoc. repeat split; auto.
      apply Forall_app. auto.
    + apply Forall_app. auto.
Qed.

Lemma opened_walk_cases triples :
  match snd (scanned_walk fs_open triples) with
  | Some e => stops_at fs_open (opened_walk fs_open triples) e
  | None => Forall (fun path => cannot_read fs_open path = false) (opened_walk fs_open triples)
  end.
Proof.
  induction triples as [|[[root dirs] files] rest IH]; simpl; [constructor|].
  pose proof (opened_files_cases root files) as Hfiles.
  destruct (scanned_files fs_open root files) as [records [e|]]; simpl in *.
  - rewrite app_nil_r. exact Hfiles.
  - destruct (scanned_walk fs_open rest) as [more [e|]]; simpl in *.
    + destruct IH as (before & bad & Hopen & Hfail & Hread).
      exists (opened_files fs_open root files ++ before), bad.
      rewrite Hopen, app_assoc. repeat split; auto.
      apply Forall_app. auto.
    + apply Forall_app. auto.
Qed.

End ScanFailure.

Lemma verdicts_same_paths sch1 sch2 records :
  Py.getitem sch1 "paths" = Py.getitem sch2 "paths" ->
  verdicts sch1 records = verdicts sch2 records.
Proof.
  intros H. induction records as [|[loc path] rest IH]; simpl; [reflexivity|].
  rewrite H, IH. reflexivity.
Qed.

Lemma well_shaped_schema_never_raises_witness :
  (exists errors,
     result_of validate_endpoints
       (Sample.state Sample.users_no_methods [("a.py", "/users")]) = Ok errors)
  /\ self (state_after validate_endpoints
             (Sample.state Sample.users_no_methods [("a.py", "/users")]))
     = self (Sample.state Sample.users_no_methods [("a.py", "/users")]).
Proof.
  apply (@well_shaped_schema_never_raises
           (Sample.state Sample.users_no_methods [("a.py", "/users")])).
  reflexivity.
Defined.

(** C3 as stated fails: the schema [{paths: {/users: null}}] is a parsed
    mapping, and with the record [("a.py", "/users")] the call raises
    [AttributeError] at [.keys()]. *)
Lemma null_method_mapping_raises :
  is_mapping Sample.users_null = true
  /\ result_of validate_endpoints (Sample.state Sample.users_null [("a.py", "/users")])
     = Raise AttributeError
  /\ ~ (exists errors,
          result_of validate_endpoints (Sample.state Sample.users_null [("a.py", "/users")])
          = Ok errors).
Proof.
  split; [reflexivity|]. split; [reflexivity|].
  intros [errors H]. vm_compute in H. discriminate H.
Qed.

Lemma validate_well_shaped_schema_witness :
  let st := Sample.state Sample.users_no_methods [("a.py", "/users"); ("b.py", "/items")] in
  let paths := [(KStr "/users", VDict [])] in
  result_of validate_endpoints st = Ok (expected_errors paths (endpoints (self st)))
  /\ length (expected_errors paths (endpoints (self st))) <= length (endpoints (self st))
  /\ expected_errors paths (endpoints (self st))
     = ["Endpoint '/users' in schema does not define valid HTTP methods.";
        "Endpoint '/items' (defined in b.py) not found in schema."].
Proof.
  intros st paths.
  destruct (@validate_well_shaped_schema st
              [(KStr "paths", VDict [(KStr "/users", VDict [])])] paths
              eq_refl eq_refl eq_refl) as (H1 & H2 & _).
  split; [exact H1|]. split; [exact H2|]. reflexivity.
Defined.

(** C4 as stated fails: the schema [{paths: {/users: null}}] has the key
    [paths], the path of the record [("a.py", "/items")] is not in it, and
    yet no not-found error comes out for it, because the call raises on the
    next record. *)
Lemma absent_path_error_lost :
  Py.contains "paths" Sample.users_null = Ok true
  /\ Py.contains "/items" (VDict [(KStr "/users", VNone)]) = Ok false
  /\ result_of validate_endpoints
       (Sample.state Sample.users_null [("a.py", "/items"); ("a.py", "/users")])
     = Raise AttributeError
  /\ ~ (exists errors,
          result_of validate_endpoints
            (Sample.state Sample.users_null [("a.py", "/items"); ("a.py", "/users")])
          = Ok errors
          /\ In "Endpoint '/items' (defined in a.py) not found in schema." errors).
Proof.
  split; [reflexivity|]. split; [reflexivity|]. split; [reflexivity|].
  intros (errors & H & _). vm_compute in H. discriminate H.
Qed.

(** ** Scenario B *)

(** C2 as stated fails: for [{paths: {}}] and [[("a.py", "/users")]] the
    result is not [["No paths defined in schema"]]. *)
Lemma scenario_B_is_not_no_paths :
  result_of validate_endpoints (Sample.state Sample.empty_paths [("a.py", "/users")])
  <> Ok ["No paths defined in schema"].
Proof. vm_compute. discriminate. Qed.

(** C2, amended: for the schema [{paths: {}}] and the records
    [[("a.py", "/users")]], [validate_endpoints] returns exactly one error,
    the not-found error of that record; and a run of [main] whose load
    gives this schema and whose scan finds one record of the path [/users]
    reports that error and exits with status 1. *)
Theorem scenario_B fs_open os_walk yaml_safe_load json_load args loc :
  let load := load_schema fs_open yaml_safe_load json_load in
  let find := find_endpoints fs_open os_walk in
  let st1 := state_after load (main_start args) in
  let st2 := state_after find st1 in
  result_of load (main_start args) = Ok tt ->
  schema (self st1) = Sample.empty_paths ->
  result_of find st1 = Ok tt ->
  endpoints (self st2) = [(loc, "/users")] ->
  (forall cp sp tr,
     result_of validate_endpoints
       (mkSt (mkValidator cp sp [("a.py", "/users")] Sample.empty_paths) tr)
     = Ok ["Endpoint '/users' (defined in a.py) not found in schema."])
  /\ result_of validate_endpoints st2 = Ok [not_found_error loc "/users"]
  /\ fst (main fs_open os_walk yaml_safe_load json_load args) = 1%Z.
Proof.
  intros load find st1 st2 Hload Hschema Hfind Hrecords.
  assert (Hval : result_of validate_endpoints st2 = Ok [not_found_error loc "/users"]).
  { destruct (validate_endpoints_validation st2) as [R _]. rewrite R, Hrecords.
    unfold st2, find. rewrite find_endpoints_self. simpl. rewrite Hschema. reflexivity. }
  split; [intros; reflexivity|]. split; [exact Hval|].
  rewrite (main_status_validated fs_open os_walk yaml_safe_load json_load args
             Hload eq_refl Hfind eq_refl Hval). reflexivity.
Qed.

Lemma scenario_B_witness :
  let args := mkArgs "." "schema.yaml" false in
  result_of validate_endpoints
    (state_after (find_endpoints Sample.fs_open_b Sample.os_walk)
       (state_after (load_schema Sample.fs_open_b Sample.yaml_safe_load Sample.json_load)
          (main_start args)))
  = Ok ["Endpoint '/users' (defined in ./a.py) not found in schema."]
  /\ fst (main Sample.fs_open_b Sample.os_walk Sample.yaml_safe_load Sample.json_load args)
     = 1%Z.
Proof.
  intros args.
  destruct (@scenario_B Sample.fs_open_b Sample.os_walk Sample.yaml_safe_load
              Sample.json_load args "./a.py" eq_refl eq_refl eq_refl eq_refl)
    as (_ & H2 & H3).
  split; [exact H2 | exact H3].
Defined.

(** ** Failures of [load_schema] *)

(** C6 as stated fails: the name [missing.txt] has none of the three
    extensions and no such file exists; [load_schema] raises the not-found
    error of [open], not the unsupported-format error, because the file is
    opened before the extension is tested. *)
Lemma missing_txt_schema_is_not_found :
  is_yaml "missing.txt" = false
  /\ is_json "missing.txt" = false
  /\ result_of (load_schema Sample.fs_open Sample.yaml_safe_load Sample.json_load)
               (mkSt (init "src" "missing.txt") [])
     = Raise (FileNotFoundError "missing.txt")
  /\ result_of (load_schema Sample.fs_open Sample.yaml_safe_load Sample.json_load)
               (mkSt (init "src" "missing.txt") [])
     <> Raise unsupported_format.
Proof.
  split; [reflexivity|]. split; [reflexivity|]. split; [reflexivity|].
  vm_compute. discriminate.
Qed.

(** C6, amended: [load_schema] raises the not-found error of [open] when
    the file does not exist, whatever its name; the parser's error with
    its diagnostic when the text of a YAML or JSON file does not parse; and
    the unsupported-format error when the file opens and its name has none
    of the three extensions, in which case the file has been opened and
    nothing has been read or parsed.  Whatever the failure, the object is
    as before (no schema is stored), and [main] ends with status 1 having
    opened the schema file only: no source file is scanned and nothing is
    validated. *)
Theorem load_schema_failures fs_open os_walk yaml_safe_load json_load st :
  let path := schema_path (self st) in
  let load := load_schema fs_open yaml_safe_load json_load in
  (forall name,
     fs_open path = Raise (FileNotFoundError name) ->
     result_of load st = Raise (FileNotFoundError name))
  /\ (forall content diagnostic,
        fs_open path = Ok (Text content) -> is_yaml path = true ->
        yaml_safe_load content = inl diagnostic ->
        result_of load st = Raise (YAMLError diagnostic))
  /\ (forall content diagnostic,
        fs_open path = Ok (Text content) -> is_yaml path = false -> is_json path = true ->
        json_load content = inl diagnostic ->
        result_of load st = Raise (JSONDecodeError diagnostic))
  /\ (forall f,
        fs_open path = Ok f -> is_yaml path = false -> is_json path = false ->
        load st
        = (Raise unsupported_format,
           mkSt (self st)
                (trace st ++ [Open path;
                              Logged ERROR "Error loading schema: " (Some unsupported_format)])))
  /\ (forall e, result_of load st = Raise e -> self (state_after load st) = self st)
  /\ (forall args e,
        st = main_start args -> result_of load st = Raise e ->
        exists msg oe,
          main fs_open os_walk yaml_safe_load json_load args
          = (1%Z, trace st ++ [Open path; Logged ERROR msg oe; critical e])).
Proof.
  intros path load.
  assert (Hdoc : forall e,
            loaded fs_open yaml_safe_load json_load path = Raise e ->
            result_of load st = Raise e).
  { intros e H. unfold load. rewrite load_schema_result. fold path. rewrite H. reflexivity. }
  split; [|split; [|split; [|split; [|split]]]].
  - intros name Hopen. apply Hdoc. unfold loaded. rewrite Hopen. reflexivity.
  - intros content diagnostic Hopen Hyaml Hparse. apply Hdoc.
    unfold loaded, parsed. rewrite Hopen, Hyaml, Hparse. reflexivity.
  - intros content diagnostic Hopen Hyaml Hjson Hparse. apply Hdoc.
    unfold loaded, parsed. rewrite Hopen, Hyaml, Hjson, Hparse. reflexivity.
  - intros f Hopen Hyaml Hjson.
    unfold load, load_schema, try_except. rewrite load_schema_body_run. fold path.
    unfold loaded. rewrite Hopen, Hyaml, Hjson. simpl.
    unfold load_schema_handler, unsupported_format. unfold_monad. simpl.
    rewrite <- app_assoc. reflexivity.
  - intros e Hraise. unfold load in *. rewrite load_schema_self.
    rewrite load_schema_result in Hraise.
    destruct (loaded fs_open yaml_safe_load json_load (schema_path (self st)));
      [discriminate|reflexivity].
  - intros args e Hst Hraise. subst st.
    rewrite (main_load_fails fs_open os_walk yaml_safe_load json_load _ Hraise).
    pose proof (load_schema_run fs_open yaml_safe_load json_load (main_start args)) as Hrun.
    unfold load in Hraise. rewrite load_schema_result in Hraise.
    destruct (loaded fs_open yaml_safe_load json_load (schema_path (self (main_start args))))
      as [v|e']; [discriminate|].
    inversion Hraise; subst e'. destruct Hrun as (msg & oe & Hrun).
    exists msg, oe. unfold state_after. rewrite Hrun. simpl.
    rewrite <- app_assoc. reflexivity.
Qed.

Lemma load_schema_failures_witness :
  let load := load_schema Sample.fs_open Sample.yaml_safe_load Sample.json_load in
  let run := main Sample.fs_open Sample.os_walk Sample.yaml_safe_load Sample.json_load in
  result_of load (main_start (mkArgs "src" "missing.yaml" false))
  = Raise (FileNotFoundError "missing.yaml")
  /\ result_of load (main_start (mkArgs "src" "broken.yaml" false))
     = Raise (YAMLError "while parsing a flow node")
  /\ result_of load (main_start (mkArgs "src" "broken.json" false))
     = Raise (JSONDecodeError "Expecting value")
  /\ load (main_start (mkArgs "src" "schema.txt" false))
     = (Raise unsupported_format,
        mkSt (init "src" "schema.txt")
             [Open "schema.txt";
              Logged ERROR "Error loading schema: " (Some unsupported_format)])
  /\ self (state_after load (main_start (mkArgs "src" "schema.txt" false)))
     = init "src" "schema.txt"
  /\ (exists msg oe,
        run (mkArgs "src" "schema.txt" false)
        = (1%Z, [Open "schema.txt"; Logged ERROR msg oe; critical unsupported_format])).
Proof.
  intros load run.
  split; [|split; [|split; [|split; [|split]]]].
  - destruct (load_schema_failures Sample.fs_open Sample.os_walk Sample.yaml_safe_load
                Sample.json_load (main_start (mkArgs "src" "missing.yaml" false)))
      as (H & _).
    exact (H "missing.yaml" eq_refl).
  - destruct (load_schema_failures Sample.fs_open Sample.os_walk Sample.yaml_safe_load
                Sample.json_load (main_start (mkArgs "src" "broken.yaml" false)))
      as (_ & H & _).
    exact (H "paths: [" "while parsing a flow node" eq_refl eq_refl eq_refl).
  - destruct (load_schema_failures Sample.fs_open Sample.os_walk Sample.yaml_safe_load
                Sample.json_load (main_start (mkArgs "src" "broken.json" false)))
      as (_ & _ & H & _).
    exact (H "{" "Expecting value" eq_refl eq_refl eq_refl eq_refl).
  - destruct (load_schema_failures Sample.fs_open Sample.os_walk Sample.yaml_safe_load
                Sample.json_load (main_start (mkArgs "src" "schema.txt" false)))
      as (_ & _ & _ & H & _).
    exact (H (Text "paths: {}") eq_refl eq_refl eq_refl).
  - destruct (load_schema_failures Sample.fs_open Sample.os_walk Sample.yaml_safe_load
                Sample.json_load (main_start (mkArgs "src" "schema.txt" false)))
      as (_ & _ & _ & _ & H & _).
    exact (H unsupported_format eq_refl).
  - destruct (load_schema_failures Sample.fs_open Sample.os_walk Sample.yaml_safe_load
                Sample.json_load (main_start (mkArgs "src" "schema.txt" false)))
      as (_ & _ & _ & _ & _ & H).
    exact (H (mkArgs "src" "schema.txt" false) unsupported_format eq_refl eq_refl).
Defined.

(** ** Failures of [find_endpoints] *)

(** C7: when one of the Python files that the walk yields cannot be
    opened or read, [find_endpoints] raises: the scan stops at the first
    such file (every file opened before it was read, none is opened after
    it), the failure is logged and raised again, and [main] ends with
    status 1 without calling [validate_endpoints]. *)
Theorem unreadable_file_aborts_scan
        fs_open os_walk yaml_safe_load json_load st root dirs files name :
  let find := find_endpoints fs_open os_walk in
  let load := load_schema fs_open yaml_safe_load json_load in
  In (root, dirs, files) (os_walk (code_path (self st))) ->
  In name files ->
  Py.endswith name ".py" = true ->
  cannot_read fs_open (Py.path_join root name) = true ->
  exists e,
    result_of find st = Raise e
    /\ (exists opened,
          stops_at fs_open opened e
          /\ trace (state_after find st)
             = trace st ++ map Open opened
               ++ [Logged ERROR "Error finding endpoints: " (Some e)])
    /\ (forall args,
          result_of load (main_start args) = Ok tt ->
          state_after load (main_start args) = st ->
          main fs_open os_walk yaml_safe_load json_load args
          = (1%Z, trace (state_after find st) ++ [critical e])).
Proof.
  intros find load Hin Hname Hpy Hbad.
  destruct (scanned_walk_fail fs_open _ _ _ _ _ Hin Hname Hpy Hbad) as (e & He).
  assert (Hres : result_of find st = Raise e).
  { unfold find. rewrite find_endpoints_result. unfold scanned. rewrite He. reflexivity. }
  exists e. split; [exact Hres|]. split.
  - exists (opened_walk fs_open (os_walk (code_path (self st)))). split.
    + pose proof (opened_walk_cases fs_open (os_walk (code_path (self st)))) as H.
      rewrite He in H. exact H.
    + unfold find, state_after. rewrite find_endpoints_run. simpl.
      unfold scanned. rewrite He. reflexivity.
  - intros args Hload Hst. subst st.
    apply (main_find_fails fs_open os_walk yaml_safe_load json_load args Hload eq_refl Hres).
Qed.

Lemma unreadable_file_aborts_scan_witness :
  let args := mkArgs "src" "schema.yaml" false in
  let st := state_after (load_schema Sample.fs_open Sample.yaml_safe_load Sample.json_load)
              (main_start args) in
  exists e,
    result_of (find_endpoints Sample.fs_open Sample.os_walk) st = Raise e
    /\ main Sample.fs_open Sample.os_walk Sample.yaml_safe_load Sample.json_load args
       = (1%Z, trace (state_after (find_endpoints Sample.fs_open Sample.os_walk) st)
               ++ [critical e]).
Proof.
  intros args st.
  destruct (@unreadable_file_aborts_scan Sample.fs_open Sample.os_walk
              Sample.yaml_safe_load Sample.json_load st
              "src/api" [] ["locked.py"] "locked.py")
    as (e & Hres & _ & Hmain).
  - right. left. reflexivity.
  - left. reflexivity.
  - reflexivity.
  - reflexivity.
  - exists e. split; [exact Hres|]. apply (Hmain args); reflexivity.
Defined.

(** ** YAML and JSON *)

(** C8: when a YAML file and a JSON file parse to mappings with the same
    entry [paths], loading through the YAML branch and loading through
    the JSON branch are both successful and [validate_endpoints] gives the
    same result for the same records. *)
Theorem yaml_and_json_agree
        fs_open yaml_safe_load json_load st_yaml st_json
        text_yaml text_json entries_yaml entries_json paths :
  let load := load_schema fs_open yaml_safe_load json_load in
  is_yaml (schema_path (self st_yaml)) = true ->
  is_yaml (schema_path (self st_json)) = false ->
  is_json (schema_path (self st_json)) = true ->
  fs_open (schema_path (self st_yaml)) = Ok (Text text_yaml) ->
  fs_open (schema_path (self st_json)) = Ok (Text text_json) ->
  yaml_safe_load text_yaml = inr (VDict entries_yaml) ->
  json_load text_json = inr (VDict entries_json) ->
  Py.dict_get "paths" entries_yaml = Some paths ->
  Py.dict_get "paths" entries_json = Some paths ->
  endpoints (self st_yaml) = endpoints (self st_json) ->
  result_of load st_yaml = Ok tt
  /\ result_of load st_json = Ok tt
  /\ result_of validate_endpoints (state_after load st_yaml)
     = result_of validate_endpoints (state_after load st_json).
Proof.
  intros load Hy Hjy Hj Hopen_y Hopen_j Hparse_y Hparse_j Hpaths_y Hpaths_j Hrecords.
  assert (Dy : loaded fs_open yaml_safe_load json_load (schema_path (self st_yaml))
               = Ok (VDict entries_yaml)).
  { unfold loaded, parsed. rewrite Hopen_y, Hy, Hparse_y. reflexivity. }
  assert (Dj : loaded fs_open yaml_safe_load json_load (schema_path (self st_json))
               = Ok (VDict entries_json)).
  { unfold loaded, parsed. rewrite Hopen_j, Hjy, Hj, Hparse_j. reflexivity. }
  unfold load. rewrite !load_schema_result, Dy, Dj.
  split; [reflexivity|]. split; [reflexivity|].
  destruct (validate_endpoints_validation
              (state_after (load_schema fs_open yaml_safe_load json_load) st_yaml)) as [Ry _].
  destruct (validate_endpoints_validation
              (state_after (load_schema fs_open yaml_safe_load json_load) st_json)) as [Rj _].
  rewrite Ry, Rj, !load_schema_self, Dy, Dj. simpl. rewrite Hrecords.
  unfold validation, Py.contains. rewrite !dict_get_existsb, Hpaths_y, Hpaths_j.
  replace (Py.truthy (VDict entries_yaml)) with true
    by (destruct entries_yaml; [discriminate Hpaths_y|reflexivity]).
  replace (Py.truthy (VDict entries_json)) with true
    by (destruct entries_json; [discriminate Hpaths_j|reflexivity]).
  apply verdicts_same_paths. unfold Py.getitem. rewrite Hpaths_y, Hpaths_j. reflexivity.
Qed.

Lemma yaml_and_json_agree_witness :
  let load := load_schema Sample.fs_open Sample.yaml_safe_load Sample.json_load in
  let st_yaml := mkSt (mkValidator "src" "schema.yaml" [("a.py", "/users")] VNone) [] in
  let st_json := mkSt (mkValidator "src" "schema.json" [("a.py", "/users")] VNone) [] in
  result_of load st_yaml = Ok tt
  /\ result_of load st_json = Ok tt
  /\ result_of validate_endpoints (state_after load st_yaml)
     = result_of validate_endpoints (state_after load st_json).
Proof.
  intros load st_yaml st_json.
  apply (@yaml_and_json_agree Sample.fs_open Sample.yaml_safe_load Sample.json_load
           st_yaml st_json "paths: {}" Sample.json_empty_paths
           [(KStr "paths", VDict [])]
           [(KStr "info", VDict []); (KStr "paths", VDict [])]
           (VDict [])); reflexivity.
Defined.

(** ** A loaded schema that is falsy *)

(** C9: when [load_schema] succeeds and the document it stores is falsy,
    as the empty mapping and [None] are, [validate_endpoints] returns
    [["Schema not loaded."]] and not [["No paths defined in schema"]]. *)
Theorem falsy_loaded_schema_reported_as_not_loaded
        fs_open yaml_safe_load json_load st v :
  let load := load_schema fs_open yaml_safe_load json_load in
  result_of load st = Ok tt ->
  schema (self (state_after load st)) = v ->
  v = VDict [] \/ v = VNone \/ Py.truthy v = false ->
  result_of validate_endpoints (state_after load st) = Ok ["Schema not loaded."]
  /\ result_of validate_endpoints (state_after load st) <> Ok ["No paths defined in schema"].
Proof.
  intros load Hload Hschema Hfalsy.
  assert (Hf : Py.truthy v = false) by (destruct Hfalsy as [->|[->|H]]; auto).
  destruct (validate_endpoints_validation (state_after load st)) as [R _].
  rewrite R, Hschema. unfold validation. rewrite Hf.
  split; [reflexivity|discriminate].
Qed.

Lemma falsy_loaded_schema_reported_as_not_loaded_witness :
  let load := load_schema Sample.fs_open Sample.yaml_safe_load Sample.json_load in
  let st := mkSt (mkValidator "src" "empty.json" [("a.py", "/users")] VNone) [] in
  result_of validate_endpoints (state_after load st) = Ok ["Schema not loaded."]
  /\ result_of validate_endpoints (state_after load st) <> Ok ["No paths defined in schema"].
Proof.
  intros load st.
  apply (@falsy_loaded_schema_reported_as_not_loaded Sample.fs_open Sample.yaml_safe_load
           Sample.json_load st (VDict [])).
  - reflexivity.
  - reflexivity.
  - left. reflexivity.
Defined.

(** ** Repeated scans *)

(** C10: [find_endpoints] appends to [self.endpoints] and never clears
    it.  On an object whose list is empty, [n] calls leave the records of
    one call [n] times over, so every record occurs [n] times as often as
    after one call and a second call changes the list whenever the first
    found something; and when the schema passes the two checks of
    [validate_endpoints], the errors after [n] calls are the errors after
    one call, [n] times over. *)
Theorem find_endpoints_accumulates fs_open os_walk st n :
  let times := find_endpoints_times fs_open os_walk in
  let once := endpoints (self (times 1 st)) in
  endpoints (self st) = [] ->
  endpoints (self (times n st)) = concat (repeat once n)
  /\ (forall record,
        count_occ Endpoint_eq_dec (endpoints (self (times n st))) record
        = n * count_occ Endpoint_eq_dec once record)
  /\ (once <> [] -> endpoints (self (times 2 st)) <> endpoints (self (times 1 st)))
  /\ (forall errors,
        Py.truthy (schema (self st)) = true ->
        Py.contains "paths" (schema (self st)) = Ok true ->
        result_of validate_endpoints (times 1 st) = Ok errors ->
        result_of validate_endpoints (times n st) = Ok (concat (repeat errors n))).
Proof.
  intros times once Hempty.
  set (found := fst (scanned fs_open os_walk (code_path (self st)))).
  assert (Hn : forall k, self (times k st)
                         = with_endpoints (self st) (concat (repeat found k))).
  { intros k. unfold times. rewrite find_endpoints_times_self, Hempty. reflexivity. }
  assert (Honce : once = found).
  { unfold once. rewrite Hn. simpl. apply app_nil_r. }
  rewrite Honce. split; [|split; [|split]].
  - rewrite Hn. reflexivity.
  - intros record. rewrite Hn. simpl. apply count_occ_concat_repeat.
  - intros Hfound. rewrite !Hn. simpl. rewrite app_nil_r. intros Heq.
    apply (f_equal (@length Endpoint)) in Heq. rewrite length_app in Heq.
    destruct found; [congruence|simpl in Heq; lia].
  - intros errors Htruthy Hpaths.
    destruct (validate_endpoints_validation (times 1 st)) as [R1 _].
    destruct (validate_endpoints_validation (times n st)) as [Rn _].
    rewrite R1, Rn, !Hn. simpl. unfold validation. rewrite Htruthy, Hpaths, app_nil_r.
    apply verdicts_repeat.
Qed.

Lemma find_endpoints_accumulates_witness :
  let times := find_endpoints_times Sample.fs_open Sample.os_walk_readable in
  let st := Sample.state Sample.users_get [] in
  endpoints (self (times 3 st))
  = [("src/app.py", "/users"); ("src/app.py", "/items");
     ("src/app.py", "/users"); ("src/app.py", "/items");
     ("src/app.py", "/users"); ("src/app.py", "/items")]
  /\ result_of validate_endpoints (times 3 st)
     = Ok ["Endpoint '/items' (defined in src/app.py) not found in schema.";
           "Endpoint '/items' (defined in src/app.py) not found in schema.";
           "Endpoint '/items' (defined in src/app.py) not found in schema."].
Proof.
  intros times st.
  destruct (@find_endpoints_accumulates Sample.fs_open Sample.os_walk_readable st 3 eq_refl)
    as (H1 & _ & _ & H4).
  split.
  - exact H1.
  - exact (H4 ["Endpoint '/items' (defined in src/app.py) not found in schema."]
              eq_refl eq_refl eq_refl).
Defined.

(** * Further properties of the code *)

(** ** The route pattern *)

Lemma lazy_group_plain s : forall g,
  Re.lazy_group s = Some g -> all_chars plain g = true /\ S (String.length g) <= String.length s.
Proof.
  induction s as [|c rest IH]; intros g H; simpl in H; [discriminate|].
  destruct (Re.is_quote c) eqn:Q.
  - inversion H. simpl. split; [reflexivity|lia].
  - destruct (Ascii.eqb c Re.newline) eqn:N; [discriminate|].
    destruct (Re.lazy_group rest) as [g'|]; [|discriminate].
    inversion H. destruct (IH g' eq_refl) as [Hp Hl].
    simpl. unfold plain at 1. rewrite Q, N, Hp. split; [reflexivity|lia].
Qed.

Lemma prefix_length p : forall s,
  String.prefix p s = true ->
  String.length p + String.length (Re.drop (String.length p) s) = String.length s.
Proof.
  induction p as [|a p IH]; intros s H; [reflexivity|].
  destruct s as [|c s]; simpl in H; [discriminate|].
  destruct (ascii_dec a c); [|discriminate].
  simpl. rewrite (IH s H). reflexivity.
Qed.

Lemma match_here_group s g :
  Re.match_here s = Some g ->
  all_chars plain g = true /\ 13 + String.length g <= String.length s.
Proof.
  unfold Re.match_here. destruct (String.prefix Re.route_call s) eqn:P; [|discriminate].
  apply prefix_length in P.
  destruct (Re.drop (String.length Re.route_call) s) as [|q rest]; [discriminate|].
  destruct (Re.is_quote q); [|discriminate].
  intros H. apply lazy_group_plain in H. destruct H as [Hp Hl].
  split; [exact Hp|]. cbn in P. cbn in Hl. lia.
Qed.

Lemma findall_from_plain s : forall skip,
  Forall (fun g => all_chars plain g = true) (Re.findall_from skip s)
  /\ 13 * length (Re.findall_from skip s) <= String.length s - skip.
Proof.
  induction s as [|c rest IH]; intros skip.
  - simpl. split; [constructor|lia].
  - cbn [Re.findall_from String.length]. destruct skip as [|k]; [|apply IH].
    destruct (Re.match_here (String c rest)) as [g|] eqn:E.
    + apply match_here_group in E. destruct E as [Hp Hl].
      cbn [String.length] in Hl.
      destruct (IH (String.length Re.route_call + 1 + String.length g)) as [HF HL].
      set (found := Re.findall_from _ rest) in *.
      change (String.length Re.route_call) with 11 in HL.
      split; [constructor; assumption|]. cbn [List.length]. lia.
    + destruct (IH 0) as [HF HL]. split; [exact HF|lia].
Qed.

(** X1: no endpoint that the pattern captures holds a quote of either
    kind or a newline. *)
Theorem findall_groups_plain content :
  Forall (fun endpoint => all_chars plain endpoint = true) (Re.findall content).
Proof.
  unfold Re.findall. destruct (findall_from_plain content 0) as [Hplain _].
  exact Hplain.
Qed.

(** X2: every match takes at least thirteen characters of the text and
    matches do not overlap, so a text of [n] characters gives at most
    [n / 13] endpoints. *)
Theorem findall_count content :
  13 * length (Re.findall content) <= String.length content.
Proof.
  destruct (findall_from_plain content 0) as [_ H]. unfold Re.findall. lia.
Qed.

Lemma findall_from_no_call s : forall skip,
  Py.is_substring Re.route_call s = false -> Re.findall_from skip s = [].
Proof.
  induction s as [|c rest IH]; intros skip H; [reflexivity|].
  unfold Py.is_substring in H. cbn [String.index] in H.
  destruct (String.prefix Re.route_call (String c rest)) eqn:P; [discriminate|].
  assert (Hrest : Py.is_substring Re.route_call rest = false).
  { unfold Py.is_substring.
    destruct (String.index 0 Re.route_call rest); [discriminate|reflexivity]. }
  cbn [Re.findall_from]. destruct skip as [|k]; [|apply IH; exact Hrest].
  unfold Re.match_here. rewrite P. apply IH. exact Hrest.
Qed.

(** X3: a text in which [@app.route(] does not occur gives no endpoint. *)
Theorem findall_without_route_call content :
  Py.is_substring Re.route_call content = false -> Re.findall content = [].
Proof.
  intros Habsent. unfold Re.findall. apply findall_from_no_call. exact Habsent.
Qed.

Lemma findall_without_route_call_witness :
  Re.findall "import flask
def users(): return route('/users')" = [].
Proof. apply findall_without_route_call. reflexivity. Defined.

Lemma lazy_group_found p : forall q tail,
  all_chars plain p = true -> Re.is_quote q = true ->
  Re.lazy_group (String.append p (String q tail)) = Some p.
Proof.
  induction p as [|c p IH]; intros q tail Hp Hq; simpl.
  - rewrite Hq. reflexivity.
  - simpl in Hp. apply andb_prop in Hp. destruct Hp as [Hc Hp].
    unfold plain in Hc. apply andb_prop in Hc. destruct Hc as [Q N].
    apply negb_true_iff in Q. apply negb_true_iff in N.
    rewrite Q, N, (IH q tail Hp Hq). reflexivity.
Qed.

Lemma findall_from_skip a : forall b,
  Re.findall_from (String.length a) (String.append a b) = Re.findall_from 0 b.
Proof.
  induction a as [|c a IH]; intros b; simpl.
  - destruct b; reflexivity.
  - apply IH.
Qed.

Lemma append_assoc_string a : forall b c,
  String.append (String.append a b) c = String.append a (String.append b c).
Proof. induction a as [|x a IH]; intros b c; simpl; [reflexivity|]. rewrite IH. reflexivity. Qed.

Lemma length_append_string a : forall b,
  String.length (String.append a b) = String.length a + String.length b.
Proof. induction a as [|x a IH]; intros b; simpl; [reflexivity|]. rewrite IH. reflexivity. Qed.

Lemma match_here_declaration q1 q2 path tail :
  Re.is_quote q1 = true -> Re.is_quote q2 = true -> all_chars plain path = true ->
  Re.match_here
    (String.append Re.route_call (String q1 (String.append path (String q2 tail))))
  = Some path.
Proof.
  intros H1 H2 Hp. unfold Re.match_here.
  set (text := String.append Re.route_call _).
  assert (P : String.prefix Re.route_call text = true) by reflexivity.
  assert (D : Re.drop (String.length Re.route_call) text
              = String q1 (String.append path (String q2 tail))) by reflexivity.
  rewrite P, D, H1. apply lazy_group_found; assumption.
Qed.

(** X4: a route declaration at the start of a text is found, whichever of
    the two quotes opens it and whichever closes it, and the search goes on
    right after the closing quote. *)
Theorem findall_declaration q1 q2 path tail :
  Re.is_quote q1 = true -> Re.is_quote q2 = true -> all_chars plain path = true ->
  Re.findall (String.append Re.route_call (String q1 (String.append path (String q2 tail))))
  = path :: Re.findall tail.
Proof.
  intros H1 H2 Hp. unfold Re.findall.
  pose proof (@match_here_declaration q1 q2 path tail H1 H2 Hp) as E.
  set (rest := String.append "app.route("
                 (String q1 (String.append path (String q2 tail)))).
  change (String.append Re.route_call (String q1 (String.append path (String q2 tail))))
    with (String "@" rest) in *.
  cbn [Re.findall_from]. rewrite E. f_equal.
  set (skipped := String.append "app.route("
                    (String q1 (String.append path (String q2 EmptyString)))).
  assert (R : rest = String.append skipped tail).
  { unfold rest, skipped. cbn [String.append]. rewrite append_assoc_string. reflexivity. }
  assert (L : String.length Re.route_call + 1 + String.length path = String.length skipped).
  { unfold skipped. cbn [String.append String.length]. rewrite length_append_string.
    cbn [String.length]. change (String.length Re.route_call) with 11. lia. }
  rewrite R, L. apply findall_from_skip.
Qed.

Lemma findall_declaration_witness :
  Re.findall "@app.route('/users/<id>', methods=['GET'])"
  = "/users/<id>" :: Re.findall ", methods=['GET'])".
Proof.
  apply (@findall_declaration "'" "'" "/users/<id>" ", methods=['GET'])");
    reflexivity.
Defined.

Lemma prefix_other_head a p c s :
  a <> c -> String.prefix (String a p) (String c s) = false.
Proof. intros H. simpl. destruct (ascii_dec a c); [contradiction|reflexivity]. Qed.

(** X5: characters other than [@] before a text change nothing to what is
    found in it. *)
Theorem findall_skips_other_text before content :
  all_chars not_at before = true ->
  Re.findall (String.append before content) = Re.findall content.
Proof.
  unfold Re.findall. induction before as [|c before IH]; intros H; [reflexivity|].
  simpl in H. apply andb_prop in H. destruct H as [Hc H].
  simpl. unfold Re.match_here.
  assert (P : String.prefix Re.route_call (String c (String.append before content)) = false).
  { apply prefix_other_head. intros <-. discriminate Hc. }
  rewrite P. apply IH. exact H.
Qed.

Lemma findall_skips_other_text_witness :
  Re.findall "from flask import Flask
@app.route('/users')" = Re.findall "@app.route('/users')".
Proof.
  apply (@findall_skips_other_text "from flask import Flask
" "@app.route('/users')").
  reflexivity.
Defined.

(** ** Which files the scan reads *)

Lemma substring_append_skip a : forall b m k,
  substring (String.length a + m) k (String.append a b) = substring m k b.
Proof. induction a as [|c a IH]; intros b m k; simpl; [reflexivity|apply IH]. Qed.

Lemma endswith_append a b suffix :
  Py.endswith b suffix = true -> Py.endswith (String.append a b) suffix = true.
Proof.
  unfold Py.endswith. intros H. apply andb_prop in H. destruct H as [Hle Heq].
  apply Nat.leb_le in Hle. rewrite length_append_string.
  apply andb_true_intro. split; [apply Nat.leb_le; lia|].
  replace (String.length a + String.length b - String.length suffix)
    with (String.length a + (String.length b - String.length suffix)) by lia.
  rewrite substring_append_skip. exact Heq.
Qed.

Lemma endswith_path_join root name suffix :
  Py.endswith name suffix = true -> Py.endswith (Py.path_join root name) suffix = true.
Proof.
  intros H. unfold Py.path_join.
  destruct (String.eqb root ""); [exact H|].
  destruct (Py.endswith root "/"); repeat apply endswith_append; exact H.
Qed.

Section Scan.

Variable fs_open : string -> result file.
Variable os_walk : string -> list (string * list string * list string).

Lemma scanned_files_python root names :
  let paths := map (Py.path_join root) (filter is_python names) in
  if forallb (readable fs_open) paths
  then scanned_files fs_open root names = (flat_map (routes_in fs_open) paths, None)
       /\ opened_files fs_open root names = paths
  else exists e, snd (scanned_files fs_open root names) = Some e.
Proof.
  induction names as [|name rest IH]; [simpl; auto|].
  cbn [filter scanned_files opened_files]. unfold scanned_file, opened_file.
  fold (is_python name). destruct (is_python name); cbn [map forallb flat_map].
  - unfold readable at 1, cannot_read, routes_in at 1.
    destruct (fs_open (Py.path_join root name)) as [[e|content]|e]; cbn [negb andb snd];
      try (exists e; reflexivity).
    cbv zeta in IH.
    destruct (forallb (readable fs_open) (map (Py.path_join root) (filter is_python rest))).
    + destruct IH as [-> ->]. auto.
    + destruct IH as (e & He).
      destruct (scanned_files fs_open root rest) as [more failure]. simpl in *. eauto.
  - cbv zeta in IH. cbn [snd].
    destruct (forallb (readable fs_open) (map (Py.path_join root) (filter is_python rest))).
    + destruct IH as [-> ->]. auto.
    + destruct IH as (e & He).
      destruct (scanned_files fs_open root rest) as [more failure]. simpl in *. eauto.
Qed.

Lemma scanned_walk_python triples :
  if forallb (readable fs_open) (python_files triples)
  then scanned_walk fs_open triples
       = (flat_map (routes_in fs_open) (python_files triples), None)
       /\ opened_walk fs_open triples = python_files triples
  else exists e, snd (scanned_walk fs_open triples) = Some e.
Proof.
  induction triples as [|[[root dirs] files] rest IH]; [simpl; auto|].
  cbn [python_files flat_map scanned_walk opened_walk]. fold (python_files rest).
  rewrite forallb_app, flat_map_app.
  pose proof (scanned_files_python root files) as Hfiles. cbv zeta in Hfiles.
  destruct (forallb (readable fs_open) (map (Py.path_join root) (filter is_python files))).
  - destruct Hfiles as [-> ->]. cbn [andb snd].
    destruct (forallb (readable fs_open) (python_files rest)).
    + destruct IH as [-> ->]. auto.
    + destruct IH as (e & He).
      destruct (scanned_walk fs_open rest) as [more failure]. simpl in *. eauto.
  - destruct Hfiles as (e & He). cbn [andb].
    destruct (scanned_files fs_open root files) as [records failure]. simpl in *.
    subst failure. simpl. eauto.
Qed.

(** X6: [find_endpoints] returns without an exception exactly when every
    Python file of the walk can be opened and read; it has then opened
    these files, each once and in the order of the walk, and has appended
    the routes of each, in that order, to [self.endpoints]. *)
Theorem find_endpoints_succeeds_iff st :
  let files := python_files (os_walk (code_path (self st))) in
  (result_of (find_endpoints fs_open os_walk) st = Ok tt
   <-> forallb (readable fs_open) files = true)
  /\ (forallb (readable fs_open) files = true ->
      find_endpoints fs_open os_walk st
      = (Ok tt,
         mkSt (with_endpoints (self st)
                 (endpoints (self st) ++ flat_map (routes_in fs_open) files))
              (trace st ++ map Open files))).
Proof.
  intros files. pose proof (scanned_walk_python (os_walk (code_path (self st)))) as H.
  fold files in H. rewrite find_endpoints_result, find_endpoints_run. unfold scanned.
  destruct (forallb (readable fs_open) files).
  - destruct H as [-> ->]. simpl. rewrite app_nil_r. split; [tauto|reflexivity].
  - destruct H as (e & ->). simpl. split; [|discriminate]. split; discriminate.
Qed.

Lemma opened_files_python root names :
  Forall (fun path => Py.endswith path ".py" = true) (opened_files fs_open root names)
  /\ Forall (fun record : Endpoint =>
               In (fst record) (opened_files fs_open root names)
               /\ all_chars plain (snd record) = true)
            (fst (scanned_files fs_open root names)).
Proof.
  induction names as [|name rest IH]; [simpl; auto|].
  cbn [scanned_files opened_files]. unfold scanned_file, opened_file.
  destruct (Py.endswith name ".py") eqn:P.
  - pose proof (endswith_path_join root name ".py" P) as Hpath.
    destruct (fs_open (Py.path_join root name)) as [[e|content]|e]; cbn [snd fst];
      try (split; repeat constructor; exact Hpath).
    destruct IH as [IHo IHr].
    destruct (scanned_files fs_open root rest) as [more failure]. cbn [fst] in *.
    split; [constructor; assumption|].
    apply Forall_app. split.
    + apply Forall_forall. intros record Hin. apply in_map_iff in Hin.
      destruct Hin as (endpoint & <- & Hin). cbn [fst snd]. split; [left; reflexivity|].
      destruct (findall_from_plain content 0) as [Hplain _].
      rewrite Forall_forall in Hplain. apply Hplain. exact Hin.
    + eapply Forall_impl; [|exact IHr]. intros record [Hin Hplain].
      split; [right; exact Hin|exact Hplain].
  - cbn [snd]. destruct IH as [IHo IHr].
    destruct (scanned_files fs_open root rest) as [more failure]. cbn [fst app] in *. auto.
Qed.

Lemma opened_walk_python triples :
  Forall (fun path => Py.endswith path ".py" = true) (opened_walk fs_open triples)
  /\ Forall (fun record : Endpoint =>
               In (fst record) (opened_walk fs_open triples)
               /\ all_chars plain (snd record) = true)
            (fst (scanned_walk fs_open triples)).
Proof.
  induction triples as [|[[root dirs] files] rest IH]; [simpl; auto|].
  cbn [scanned_walk opened_walk].
  destruct (opened_files_python root files) as [Ho Hr].
  destruct (scanned_files fs_open root files) as [records [e|]]; cbn [fst snd] in *.
  - rewrite app_nil_r. auto.
  - destruct IH as [IHo IHr].
    destruct (scanned_walk fs_open rest) as [more failure]. cbn [fst] in *.
    split; [apply Forall_app; auto|].
    apply Forall_app. split.
    + eapply Forall_impl; [|exact Hr]. intros record [Hin Hplain].
      split; [apply in_or_app; left; exact Hin|exact Hplain].
    + eapply Forall_impl; [|exact IHr]. intros record [Hin Hplain].
      split; [apply in_or_app; right; exact Hin|exact Hplain].
Qed.

(** X7: whether it returns or raises, [find_endpoints] opens no file
    whose path does not end in [.py], and every record it adds names a
    file that it has opened and a path without quote or newline. *)
Theorem find_endpoints_reads_python_only st :
  let st' := state_after (find_endpoints fs_open os_walk) st in
  (forall path,
     In (Open path) (trace st') ->
     In (Open path) (trace st) \/ Py.endswith path ".py" = true)
  /\ (forall record,
        In record (endpoints (self st')) ->
        In record (endpoints (self st))
        \/ (In (Open (fst record)) (trace st')
            /\ Py.endswith (fst record) ".py" = true
            /\ all_chars plain (snd record) = true)).
Proof.
  intros st'. unfold st', state_after. rewrite find_endpoints_run. cbn [snd self trace].
  destruct (opened_walk_python (os_walk (code_path (self st)))) as [Ho Hr].
  rewrite Forall_forall in Ho, Hr. split.
  - intros path Hin. apply in_app_or in Hin. destruct Hin as [Hin|Hin]; [auto|].
    apply in_app_or in Hin. destruct Hin as [Hin|Hin].
    + right. apply in_map_iff in Hin. destruct Hin as (p & Hp & Hin).
      inversion Hp. subst p. apply Ho. exact Hin.
    + destruct (snd (scanned fs_open os_walk (code_path (self st)))); simpl in Hin;
        [destruct Hin as [Hin|[]]; discriminate Hin|contradiction].
  - intros record Hin. unfold with_endpoints in Hin. cbn [endpoints] in Hin.
    apply in_app_or in Hin. destruct Hin as [Hin|Hin]; [auto|].
    right. destruct (Hr record Hin) as [Hopen Hplain].
    repeat split; [|apply Ho; exact Hopen|exact Hplain].
    apply in_or_app. right. apply in_or_app. left.
    apply in_map. exact Hopen.
Qed.

End Scan.

Lemma find_endpoints_succeeds_iff_witness :
  find_endpoints Sample.fs_open Sample.os_walk_readable (Sample.state Sample.users_get [])
  = (Ok tt,
     mkSt (mkValidator "src" "schema.yaml"
             [("src/app.py", "/users"); ("src/app.py", "/items")] Sample.users_get)
          [Open "src/app.py"]).
Proof.
  destruct (find_endpoints_succeeds_iff Sample.fs_open Sample.os_walk_readable
              (Sample.state Sample.users_get [])) as [_ H].
  exact (H eq_refl).
Defined.

Lemma find_endpoints_reads_python_only_witness :
  In (Open "src/api/locked.py") (trace (Sample.state Sample.users_get []))
  \/ Py.endswith "src/api/locked.py" ".py" = true.
Proof.
  destruct (find_endpoints_reads_python_only Sample.fs_open Sample.os_walk
              (Sample.state Sample.users_get [])) as [H _].
  apply H. right. left. reflexivity.
Defined.

(** ** How [load_schema] and [find_endpoints] compose *)

Section Stages.

Variable fs_open : string -> result file.
Variable os_walk : string -> list (string * list string * list string).
Variable yaml_safe_load : string -> string + Value.
Variable json_load : string -> string + Value.

Lemma loaded_ok_iff path document :
  loaded fs_open yaml_safe_load json_load path = Ok document
  <-> exists content,
        fs_open path = Ok (Text content)
        /\ (is_yaml path = true /\ yaml_safe_load content = inr document
            \/ is_yaml path = false /\ is_json path = true
               /\ json_load content = inr document).
Proof.
  unfold loaded, parsed. split.
  - destruct (fs_open path) as [[e|content]|e]; try discriminate.
    + destruct (is_yaml path); [discriminate|]. destruct (is_json path); discriminate.
    + destruct (is_yaml path).
      * destruct (yaml_safe_load content) eqn:E; [discriminate|].
        intros H. inversion H. subst. eauto 6.
      * destruct (is_json path); [|discriminate].
        destruct (json_load content) eqn:E; [discriminate|].
        intros H. inversion H. subst. eauto 7.
  - intros (content & -> & [[-> ->]|(-> & -> & ->)]); reflexivity.
Qed.

(** X8: [load_schema] returns with the document [document] stored exactly
    when the file opens and can be read, and either its name ends in
    [.yaml] or [.yml] and the YAML parser gives [document], or it ends in
    [.json] and in neither of those and the JSON parser gives [document];
    the call then touches no other field, opens the schema file once and
    logs nothing. *)
Theorem load_schema_succeeds_iff st document :
  let path := schema_path (self st) in
  let load := load_schema fs_open yaml_safe_load json_load in
  ((result_of load st = Ok tt /\ schema (self (state_after load st)) = document)
   <-> exists content,
         fs_open path = Ok (Text content)
         /\ (is_yaml path = true /\ yaml_safe_load content = inr document
             \/ is_yaml path = false /\ is_json path = true
                /\ json_load content = inr document))
  /\ (result_of load st = Ok tt -> schema (self (state_after load st)) = document ->
      load st = (Ok tt, mkSt (with_schema (self st) document) (trace st ++ [Open path]))).
Proof.
  intros path load. unfold load.
  pose proof (load_schema_run fs_open yaml_safe_load json_load st) as H.
  rewrite load_schema_result, load_schema_self, <- loaded_ok_iff. fold path in H |- *.
  destruct (loaded fs_open yaml_safe_load json_load path) as [v|e].
  - split.
    + split; [intros [_ <-]; reflexivity|]. intros E. inversion E. auto.
    + intros _ Hdoc. simpl in Hdoc. subst v. exact H.
  - split.
    + split; [intros [E _]; discriminate E|discriminate].
    + discriminate.
Qed.

(** X9: the two stages do not interfere.  Each returns or raises the
    same whether it runs first or second, and the object is the same after
    both in either order. *)
Theorem load_and_find_commute st :
  let load := load_schema fs_open yaml_safe_load json_load in
  let find := find_endpoints fs_open os_walk in
  result_of load (state_after find st) = result_of load st
  /\ result_of find (state_after load st) = result_of find st
  /\ self (state_after find (state_after load st))
     = self (state_after load (state_after find st)).
Proof.
  intros load find. unfold load, find.
  assert (Hcode : code_path (self (state_after
                    (load_schema fs_open yaml_safe_load json_load) st))
                  = code_path (self st)).
  { rewrite load_schema_self.
    destruct (loaded fs_open yaml_safe_load json_load (schema_path (self st)));
      reflexivity. }
  assert (Hschema : schema_path (self (state_after (find_endpoints fs_open os_walk) st))
                    = schema_path (self st)).
  { rewrite find_endpoints_self. reflexivity. }
  split; [|split].
  - rewrite !load_schema_result, Hschema. reflexivity.
  - rewrite !find_endpoints_result, Hcode. reflexivity.
  - rewrite find_endpoints_self, (load_schema_self _ _ _ (state_after _ st)).
    rewrite Hcode, Hschema, load_schema_self, find_endpoints_self.
    destruct (loaded fs_open yaml_safe_load json_load (schema_path (self st)));
      reflexivity.
Qed.

(** X10: a second [load_schema] changes nothing in the object: it returns
    or raises as the first did and leaves the same schema. *)
Theorem load_schema_twice st :
  let load := load_schema fs_open yaml_safe_load json_load in
  result_of load (state_after load st) = result_of load st
  /\ self (state_after load (state_after load st)) = self (state_after load st).
Proof.
  intros load. unfold load.
  assert (Hpath : schema_path (self (state_after
                    (load_schema fs_open yaml_safe_load json_load) st))
                  = schema_path (self st)).
  { rewrite load_schema_self.
    destruct (loaded fs_open yaml_safe_load json_load (schema_path (self st)));
      reflexivity. }
  split.
  - rewrite !load_schema_result, Hpath. reflexivity.
  - rewrite (load_schema_self _ _ _ (state_after _ st)), Hpath, load_schema_self.
    destruct (loaded fs_open yaml_safe_load json_load (schema_path (self st)));
      reflexivity.
Qed.

End Stages.

Lemma load_schema_succeeds_iff_witness :
  load_schema Sample.fs_open Sample.yaml_safe_load Sample.json_load
    (mkSt (init "src" "schema.yaml") [])
  = (Ok tt, mkSt (mkValidator "src" "schema.yaml" [] Sample.empty_paths)
                 [Open "schema.yaml"]).
Proof.
  destruct (load_schema_succeeds_iff Sample.fs_open Sample.yaml_safe_load Sample.json_load
              (mkSt (init "src" "schema.yaml") []) Sample.empty_paths) as [_ H].
  exact (H eq_refl eq_refl).
Defined.

(** ** [validate_endpoints]: what it leaves alone *)

Lemma validate_endpoint_logs errors record st :
  exists logs,
    state_after (validate_endpoint errors record) st = mkSt (self st) (trace st ++ logs)
    /\ forallb is_log logs = true.
Proof.
  destruct record as [file_path endpoint].
  unfold validate_endpoint. unfold_monad. simpl.
  assert (Hnil : st = mkSt (self st) (trace st ++ [])).
  { rewrite app_nil_r. destruct st; reflexivity. }
  destruct (Py.getitem (schema (self st)) "paths") as [paths|e]; simpl;
    [|exists []; auto].
  destruct (Py.contains endpoint paths) as [[|]|e]; simpl; [| exists []; auto ..].
  destruct (Py.getitem paths endpoint) as [item|e]; simpl; [|eauto].
  destruct (Py.keys item) as [methods|e]; simpl; [|eauto].
  destruct (existsb is_http_method methods); simpl; eauto.
Qed.

Lemma validate_loop_logs records : forall errors st,
  exists logs,
    state_after (validate_loop errors records) st = mkSt (self st) (trace st ++ logs)
    /\ forallb is_log logs = true.
Proof.
  induction records as [|record rest IH]; intros errors st.
  - exists []. unfold state_after. simpl. rewrite app_nil_r. destruct st; auto.
  - destruct (validate_endpoint_logs errors record st) as (logs1 & E1 & L1).
    unfold state_after in *. cbn [validate_loop]. unfold bind.
    destruct (validate_endpoint errors record st) as [[errors'|e] st1]; simpl in E1; subst st1.
    + destruct (IH errors' (mkSt (self st) (trace st ++ logs1))) as (logs2 & E2 & L2).
      exists (logs1 ++ logs2). rewrite E2. simpl. rewrite app_assoc, forallb_app, L1, L2. auto.
    + exists logs1. auto.
Qed.

(** X11: [validate_endpoints] is an inspection.  It changes no field of
    the object, it opens no file (it only logs), and a second call returns
    or raises exactly what the first did. *)
Theorem validate_endpoints_inspects_only st :
  let st' := state_after validate_endpoints st in
  self st' = self st
  /\ (exists logs, trace st' = trace st ++ logs /\ forallb is_log logs = true)
  /\ result_of validate_endpoints st' = result_of validate_endpoints st.
Proof.
  intros st'. destruct (validate_endpoints_validation st) as [R S].
  destruct (validate_endpoints_validation st') as [R' _].
  split; [exact S|]. split; [|rewrite R', R; unfold st'; rewrite S; reflexivity].
  unfold st', state_after, validate_endpoints.
  unfold bind at 1. unfold get_self at 1.
  destruct (negb (Py.truthy (schema (self st)))).
  - exists [Logged ERROR "Schema not loaded. Call load_schema() first." None]. auto.
  - unfold bind at 1. unfold lift at 1.
    destruct (Py.contains "paths" (schema (self st))) as [[|]|e]; cbn [negb].
    + destruct (validate_loop_logs (endpoints (self st)) [] st) as (logs & E & L).
      unfold state_after in E. rewrite E. exists logs. auto.
    + exists [Logged WARNING
                "No 'paths' defined in the schema.  Cannot validate endpoints." None].
      auto.
    + exists []. rewrite app_nil_r. auto.
Qed.

(** ** [validate_endpoints]: which schemas make it raise *)

Lemma verdict_named entries paths record :
  Py.dict_get "paths" entries = Some (VDict paths) ->
  verdict (VDict entries) record
  = if names_mapping paths record then Ok (option_list (expected_error paths record))
    else Raise AttributeError.
Proof.
  intros Hpaths. destruct record as [loc path].
  unfold verdict, expected_error, names_mapping. unfold Py.getitem at 1. rewrite Hpaths.
  unfold Py.contains. rewrite dict_get_existsb. unfold Py.getitem. cbn [snd].
  destruct (Py.dict_get path paths) as [item|]; [|reflexivity].
  destruct item as [| | | | | |methods]; try reflexivity.
  simpl. destruct (existsb is_http_method (map fst methods)); reflexivity.
Qed.

Lemma verdicts_named entries paths records :
  Py.dict_get "paths" entries = Some (VDict paths) ->
  verdicts (VDict entries) records
  = if forallb (names_mapping paths) records then Ok (expected_errors paths records)
    else Raise AttributeError.
Proof.
  intros Hpaths. induction records as [|record rest IH]; [reflexivity|].
  cbn [verdicts forallb]. rewrite (verdict_named _ record Hpaths), IH.
  destruct (names_mapping paths record); [|reflexivity].
  destruct (forallb (names_mapping paths) rest); reflexivity.
Qed.

Lemma validation_with_paths entries paths records :
  Py.dict_get "paths" entries = Some paths ->
  validation (VDict entries) records = verdicts (VDict entries) records.
Proof.
  intros Hpaths. unfold validation, Py.contains. rewrite dict_get_existsb, Hpaths.
  destruct entries; [discriminate Hpaths|reflexivity].
Qed.

Lemma validate_named_result st entries paths :
  schema (self st) = VDict entries ->
  Py.dict_get "paths" entries = Some (VDict paths) ->
  result_of validate_endpoints st
  = if forallb (names_mapping paths) (endpoints (self st))
    then Ok (expected_errors paths (endpoints (self st)))
    else Raise AttributeError.
Proof.
  intros Hsch Hpaths. destruct (validate_endpoints_validation st) as [R _].
  rewrite R, Hsch, (validation_with_paths _ _ Hpaths). apply verdicts_named. exact Hpaths.
Qed.

(** X12: when the schema is a mapping whose [paths] is a mapping, only the
    entries that some record names matter.  If each of them is a mapping
    the call returns the errors of the specification, whatever the other
    entries are; if one of them is not, it raises [AttributeError] and
    returns no error at all. *)
Theorem validate_endpoints_named_entries st entries paths :
  schema (self st) = VDict entries ->
  Py.dict_get "paths" entries = Some (VDict paths) ->
  result_of validate_endpoints st
  = if forallb (names_mapping paths) (endpoints (self st))
    then Ok (expected_errors paths (endpoints (self st)))
    else Raise AttributeError.
Proof.
  intros Hsch Hpaths. destruct (validate_endpoints_validation st) as [R _].
  rewrite R, Hsch, (validation_with_paths _ _ Hpaths). apply verdicts_named. exact Hpaths.
Qed.

Lemma validate_endpoints_named_entries_witness :
  result_of validate_endpoints (Sample.state Sample.users_null [("a.py", "/items")])
  = Ok ["Endpoint '/items' (defined in a.py) not found in schema."]
  /\ result_of validate_endpoints
       (Sample.state Sample.users_null [("a.py", "/items"); ("a.py", "/users")])
     = Raise AttributeError.
Proof.
  split.
  - exact (@validate_endpoints_named_entries
             (Sample.state Sample.users_null [("a.py", "/items")])
             [(KStr "paths", VDict [(KStr "/users", VNone)])] [(KStr "/users", VNone)]
             eq_refl eq_refl).
  - exact (@validate_endpoints_named_entries
             (Sample.state Sample.users_null [("a.py", "/items"); ("a.py", "/users")])
             [(KStr "paths", VDict [(KStr "/users", VNone)])] [(KStr "/users", VNone)]
             eq_refl eq_refl).
Defined.

Lemma expected_errors_nil_iff paths records :
  forallb (names_mapping paths) records = true ->
  (expected_errors paths records = [] <-> forallb (declared paths) records = true).
Proof.
  induction records as [|[loc path] rest IH]; [simpl; tauto|].
  cbn [forallb]. intros H. apply andb_prop in H. destruct H as [Hn H].
  specialize (IH H). unfold expected_errors in *. cbn [flat_map].
  assert (Hone : expected_error paths (loc, path) = None
                 <-> declared paths (loc, path) = true).
  { unfold expected_error, declared, names_mapping in *. cbn [snd] in *.
    destruct (Py.dict_get path paths) as [item|]; [|split; discriminate].
    destruct item as [| | | | | |methods]; try discriminate Hn. simpl.
    destruct (existsb is_http_method (map fst methods)); split; congruence. }
  split.
  - intros E. apply app_eq_nil in E. destruct E as [E1 E2].
    apply andb_true_intro. split; [|apply IH; exact E2].
    apply Hone. destruct (expected_error paths (loc, path)); [discriminate E1|reflexivity].
  - intros D. apply andb_prop in D. destruct D as [D1 D2].
    apply Hone in D1. rewrite D1. simpl. apply IH. exact D2.
Qed.

Lemma declared_names_mapping paths records :
  forallb (declared paths) records = true -> forallb (names_mapping paths) records = true.
Proof.
  intros H. rewrite forallb_forall in *. intros record Hin. specialize (H record Hin).
  unfold declared, names_mapping in *.
  destruct (Py.dict_get (snd record) paths) as [[| | | | | |methods]|]; try discriminate H;
    reflexivity.
Qed.

(** X13: for a schema that is a mapping whose [paths] is a mapping, the
    validation passes (returns the empty list) exactly when the path of
    every record is a key of [paths] under which at least one key is an
    HTTP method. *)
Theorem validate_endpoints_passes_iff st entries paths :
  schema (self st) = VDict entries ->
  Py.dict_get "paths" entries = Some (VDict paths) ->
  (result_of validate_endpoints st = Ok []
   <-> forallb (declared paths) (endpoints (self st)) = true).
Proof.
  intros Hsch Hpaths. rewrite (validate_named_result st Hsch Hpaths).
  destruct (forallb (names_mapping paths) (endpoints (self st))) eqn:N.
  - rewrite <- (expected_errors_nil_iff _ _ N). split; [|intros ->; reflexivity].
    intros H. inversion H. reflexivity.
  - split; [discriminate|]. intros D. apply declared_names_mapping in D. congruence.
Qed.

Lemma validate_endpoints_passes_iff_witness :
  result_of validate_endpoints
    (Sample.state Sample.users_get [("a.py", "/users"); ("b.py", "/users")]) = Ok []
  <-> forallb (declared [(KStr "/users", VDict [(KStr "get", VDict [])])])
        [("a.py", "/users"); ("b.py", "/users")] = true.
Proof.
  apply (@validate_endpoints_passes_iff
           (Sample.state Sample.users_get [("a.py", "/users"); ("b.py", "/users")])
           [(KStr "paths", VDict [(KStr "/users", VDict [(KStr "get", VDict [])])])]
           [(KStr "/users", VDict [(KStr "get", VDict [])])]); reflexivity.
Defined.



(** X15: a loaded document that is a truthy scalar (a number other than
    zero, or [true]) makes the call raise [TypeError] at the test for
    [paths], whatever the records are, even when there is none. *)
Theorem validate_endpoints_scalar_schema st :
  is_scalar (schema (self st)) = true ->
  Py.truthy (schema (self st)) = true ->
  result_of validate_endpoints st = Raise TypeError.
Proof.
  intros Hs Ht. destruct (validate_endpoints_validation st) as [R _].
  rewrite R. unfold validation. rewrite Ht.
  destruct (schema (self st)); try discriminate Hs; try discriminate Ht; reflexivity.
Qed.

Lemma validate_endpoints_scalar_schema_witness :
  result_of validate_endpoints (Sample.state (VInt 42) []) = Raise TypeError.
Proof.
  exact (@validate_endpoints_scalar_schema (Sample.state (VInt 42) []) eq_refl eq_refl).
Defined.

(** X16: past the two checks, the errors of a list of records are the
    errors of its first part followed by the errors of the rest, and an
    exception in the first part is the exception of the whole. *)
Theorem validate_endpoints_app o tr records1 records2 :
  let run records := result_of validate_endpoints (mkSt (with_endpoints o records) tr) in
  Py.truthy (schema o) = true ->
  Py.contains "paths" (schema o) = Ok true ->
  run (records1 ++ records2)
  = match run records1 with
    | Raise e => Raise e
    | Ok errors1 =>
        match run records2 with
        | Raise e => Raise e
        | Ok errors2 => Ok (errors1 ++ errors2)
        end
    end.
Proof.
  intros run Ht Hp. unfold run.
  assert (H : forall records,
            result_of validate_endpoints (mkSt (with_endpoints o records) tr)
            = verdicts (schema o) records).
  { intros records.
    destruct (validate_endpoints_validation (mkSt (with_endpoints o records) tr)) as [R _].
    rewrite R. simpl. unfold validation. rewrite Ht, Hp. reflexivity. }
  rewrite !H, verdicts_app.
  destruct (verdicts (schema o) records1); [|reflexivity].
  destruct (verdicts (schema o) records2); reflexivity.
Qed.

Lemma validate_endpoints_app_witness :
  result_of validate_endpoints
    (Sample.state Sample.users_no_methods ([("a.py", "/items")] ++ [("b.py", "/users")]))
  = Ok (["Endpoint '/items' (defined in a.py) not found in schema."]
        ++ ["Endpoint '/users' in schema does not define valid HTTP methods."]).
Proof.
  exact (@validate_endpoints_app
           (mkValidator "src" "schema.yaml" [] Sample.users_no_methods) []
           [("a.py", "/items")] [("b.py", "/users")] eq_refl eq_refl).
Defined.

(** X17: when the schema is a mapping whose [paths] is a mapping and no
    record's path is a key of it (in particular when [paths] is empty),
    every record is reported: the call returns one not-found error per
    record, in order. *)
Theorem validate_endpoints_all_absent st entries paths :
  schema (self st) = VDict entries ->
  Py.dict_get "paths" entries = Some (VDict paths) ->
  forallb (fun record : Endpoint =>
             negb (existsb (Py.key_is (snd record)) (map fst paths)))
          (endpoints (self st)) = true ->
  result_of validate_endpoints st
  = Ok (map (fun record : Endpoint => not_found_error (fst record) (snd record))
            (endpoints (self st))).
Proof.
  intros Hsch Hpaths Habsent.
  rewrite (validate_named_result st Hsch Hpaths).
  assert (H : forall records,
            forallb (fun record : Endpoint =>
                       negb (existsb (Py.key_is (snd record)) (map fst paths)))
                    records = true ->
            forallb (names_mapping paths) records = true
            /\ expected_errors paths records
               = map (fun record : Endpoint => not_found_error (fst record) (snd record))
                     records).
  { induction records as [|[loc path] rest IH]; [auto|].
    cbn [forallb map]. intros H. apply andb_prop in H. destruct H as [H1 H2].
    destruct (IH H2) as [IH1 IH2]. cbn [snd fst] in *.
    rewrite dict_get_existsb in H1. unfold expected_errors in *. cbn [flat_map].
    unfold names_mapping at 1, expected_error at 1. cbn [snd].
    destruct (Py.dict_get path paths); [discriminate H1|].
    rewrite IH1, IH2. auto. }
  destruct (H _ Habsent) as [-> ->]. reflexivity.
Qed.

Lemma validate_endpoints_all_absent_witness :
  result_of validate_endpoints
    (Sample.state Sample.empty_paths [("a.py", "/users"); ("a.py", "/users")])
  = Ok ["Endpoint '/users' (defined in a.py) not found in schema.";
        "Endpoint '/users' (defined in a.py) not found in schema."].
Proof.
  exact (@validate_endpoints_all_absent
           (Sample.state Sample.empty_paths [("a.py", "/users"); ("a.py", "/users")])
           [(KStr "paths", VDict [])] [] eq_refl eq_refl eq_refl).
Defined.

(** ** The run as a whole *)

Section Run.

Variable fs_open : string -> result file.
Variable os_walk : string -> list (string * list string * list string).
Variable yaml_safe_load : string -> string + Value.
Variable json_load : string -> string + Value.

Lemma main_status_reading args :
  fst (main fs_open os_walk yaml_safe_load json_load args)
  = exit_status fs_open os_walk yaml_safe_load json_load args.
Proof.
  rewrite main_run. unfold exit_status.
  pose proof (load_schema_run fs_open yaml_safe_load json_load (main_start args)) as Hl.
  cbn [main_start self init schema_path] in Hl.
  destruct (loaded fs_open yaml_safe_load json_load (arg_schema_path args)) as [v|e].
  - rewrite Hl, find_endpoints_run. cbn [self with_schema code_path init endpoints app].
    destruct (scanned fs_open os_walk (arg_code_path args)) as [records [e|]];
      cbn [snd fst outcome]; [reflexivity|].
    match goal with |- context [validate_endpoints ?s] =>
      destruct (validate_endpoints_run s) as (st3 & E & _); rewrite E end.
    unfold with_endpoints, with_schema. cbn [self schema endpoints].
    destruct (validation v records) as [[|error errors]|e]; reflexivity.
  - destruct Hl as (msg & oe & ->). reflexivity.
Qed.

Lemma main_status_after_parse args :
  let st1 := state_after (load_schema fs_open yaml_safe_load json_load) (main_start args) in
  let st2 := state_after (find_endpoints fs_open os_walk) st1 in
  let status := fst (main fs_open os_walk yaml_safe_load json_load args) in
  (status = 0%Z
   <-> result_of (load_schema fs_open yaml_safe_load json_load) (main_start args) = Ok tt
       /\ result_of (find_endpoints fs_open os_walk) st1 = Ok tt
       /\ result_of validate_endpoints st2 = Ok [])
  /\ (status = 0%Z \/ status = 1%Z).
Proof.
  intros st1 st2 status. unfold status, st2, st1, result_of, state_after.
  rewrite main_run.
  destruct (load_schema fs_open yaml_safe_load json_load (main_start args))
    as [[[]|e] s1]; cbn [fst snd].
  - destruct (find_endpoints fs_open os_walk s1) as [[[]|e] s2]; cbn [fst snd].
    + destruct (validate_endpoints s2) as [[[|error errors]|e] s3]; cbn [fst snd status_of].
      * split; [|auto]. split; auto.
      * split; [|auto]. split; [discriminate|]. intros (_ & _ & H). discriminate H.
      * split; [|auto]. split; [discriminate|]. intros (_ & _ & H). discriminate H.
    + split; [|auto]. split; [discriminate|]. intros (_ & H & _). discriminate H.
  - split; [|auto]. split; [discriminate|]. intros (H & _). discriminate H.
Qed.

(** X18: the exit status of the process, from the first line of [main].
    When [parse_args] exits for the help the status is 0, and when it
    exits for a usage error the status is 2; in both cases no file is
    opened and nothing is logged.  When the arguments parse, the status is
    0 exactly when [load_schema] and [find_endpoints] raise nothing and
    [validate_endpoints] returns the empty list, and it is 1 in every other
    case (an exception in any of the three stages, or at least one
    error). *)
Theorem entry_exit_status parse_args argv :
  let run := entry fs_open os_walk yaml_safe_load json_load parse_args argv in
  match parse_args argv with
  | HelpRequested => run = (0%Z, [])
  | UsageError => run = (2%Z, [])
  | Parsed args =>
      let st1 := state_after (load_schema fs_open yaml_safe_load json_load)
                   (main_start args) in
      let st2 := state_after (find_endpoints fs_open os_walk) st1 in
      (fst run = 0%Z
       <-> result_of (load_schema fs_open yaml_safe_load json_load) (main_start args)
           = Ok tt
           /\ result_of (find_endpoints fs_open os_walk) st1 = Ok tt
           /\ result_of validate_endpoints st2 = Ok [])
      /\ (fst run = 0%Z \/ fst run = 1%Z)
  end.
Proof.
  intros run. unfold run, entry.
  destruct (parse_args argv) as [args| |]; [|reflexivity|reflexivity].
  exact (main_status_after_parse args).
Qed.

(** X19: the switch [--verbose] does not change the exit status. *)
Theorem verbose_keeps_exit_status args :
  fst (main fs_open os_walk yaml_safe_load json_load (with_verbose args true))
  = fst (main fs_open os_walk yaml_safe_load json_load (with_verbose args false)).
Proof.
  rewrite !main_status_reading. reflexivity.
Qed.

(** X20: when the three stages raise nothing, [main] ends its log with
    the outcome: the line of success and status 0 when there is no error;
    otherwise the header of failure followed by one line per error, in the
    order of the list, and status 1. *)
Theorem main_reports_errors args st1 st2 st3 errors :
  load_schema fs_open yaml_safe_load json_load (main_start args) = (Ok tt, st1) ->
  find_endpoints fs_open os_walk st1 = (Ok tt, st2) ->
  validate_endpoints st2 = (Ok errors, st3) ->
  main fs_open os_walk yaml_safe_load json_load args
  = match errors with
    | [] => (0%Z, trace st3 ++ [Logged INFO "API Endpoint Validation Passed." None])
    | _ :: _ =>
        (1%Z, trace st3
              ++ Logged ERROR "API Endpoint Validation Failed:" None
                 :: map (fun error => Logged ERROR error None) errors)
    end.
Proof.
  intros Hl Hf Hv. rewrite main_run, Hl, Hf, Hv. destruct errors; reflexivity.
Qed.

End Run.

Lemma main_reports_errors_witness :
  main Sample.fs_open Sample.os_walk_readable Sample.yaml_safe_load Sample.json_load
       (mkArgs "src" "schema.yaml" false)
  = (1%Z,
     [Open "schema.yaml"; Open "src/app.py";
      Logged ERROR "API Endpoint Validation Failed:" None;
      Logged ERROR "Endpoint '/users' (defined in src/app.py) not found in schema." None;
      Logged ERROR "Endpoint '/items' (defined in src/app.py) not found in schema." None]).
Proof.
  apply (@main_reports_errors Sample.fs_open Sample.os_walk_readable
           Sample.yaml_safe_load Sample.json_load (mkArgs "src" "schema.yaml" false)
           (mkSt (mkValidator "src" "schema.yaml" [] Sample.empty_paths)
                 [Open "schema.yaml"])
           (mkSt (mkValidator "src" "schema.yaml"
                    [("src/app.py", "/users"); ("src/app.py", "/items")]
                    Sample.empty_paths)
                 [Open "schema.yaml"; Open "src/app.py"])
           (mkSt (mkValidator "src" "schema.yaml"
                    [("src/app.py", "/users"); ("src/app.py", "/items")]
                    Sample.empty_paths)
                 [Open "schema.yaml"; Open "src/app.py"])
           ["Endpoint '/users' (defined in src/app.py) not found in schema.";
            "Endpoint '/items' (defined in src/app.py) not found in schema."]);
    reflexivity.
Defined.

(** X21: when a schema file whose name ends in [.json], and in neither
    [.yaml] nor [.yml], opens but [json.load] cannot read it, [load_schema]
    raises the error of the read as it is, after logging it once, and
    stores nothing. *)
Theorem load_schema_json_read_error fs_open yaml_safe_load json_load st e :
  let path := schema_path (self st) in
  let load := load_schema fs_open yaml_safe_load json_load in
  fs_open path = Ok (Unreadable e) ->
  is_yaml path = false ->
  is_json path = true ->
  result_of load st = Raise e
  /\ self (state_after load st) = self st
  /\ exists msg oe,
       trace (state_after load st) = trace st ++ [Open path; Logged ERROR msg oe].
Proof.
  intros path load Hopen Hyaml Hjson. unfold load.
  pose proof (load_schema_run fs_open yaml_safe_load json_load st) as H.
  assert (E : loaded fs_open yaml_safe_load json_load (schema_path (self st)) = Raise e).
  { unfold loaded, parsed. fold path. rewrite Hopen, Hyaml, Hjson. reflexivity. }
  rewrite E in H. destruct H as (msg & oe & H).
  unfold result_of, state_after. rewrite H. cbn [fst snd self trace]. eauto.
Qed.

Lemma load_schema_json_read_error_witness :
  result_of (load_schema (fun _ => Ok (Unreadable (OSError "Input/output error")))
               Sample.yaml_safe_load Sample.json_load)
            (mkSt (init "src" "schema.json") [])
  = Raise (OSError "Input/output error").
Proof.
  destruct (@load_schema_json_read_error
              (fun _ => Ok (Unreadable (OSError "Input/output error")))
              Sample.yaml_safe_load Sample.json_load
              (mkSt (init "src" "schema.json") []) (OSError "Input/output error")
              eq_refl eq_refl eq_refl) as [H _].
  exact H.
Defined.
